(** * Global Superstore dashboard: loader, filters and aggregates

    A shallow embedding of [Task6_dashboard.py].  The script is a Streamlit
    page over a pandas frame: [load_data] finds and cleans the CSV, three
    multiselect widgets restrict the frame, and a handful of group-by sums
    feed the charts.

    Modelling choices.
    - Text is [string]: the file is read as ISO-8859-1, so a character is a
      byte and Rocq's byte strings are exact.
    - A frame is its list of column labels and its rows, a row being the list
      of its cells in column order.  A label is resolved to the first
      position that carries it.
    - Sales and Profit are numeric columns: a cell is a number or missing.
      Amounts are exact integers (an amount in the smallest currency unit);
      binary floating point rounding is not represented.
    - A point in time is an integer (pandas stores nanoseconds since the
      epoch).
    - Python exceptions are the [Raise] branch of [result].

    Scope of the statements on the stages after the loader.  With a label
    that occurs twice pandas hands back a frame where the script expects a
    column, text in Sales or Profit cannot be formatted as an amount, and
    float64 or int64 additions round or wrap.  The properties of these
    stages are therefore stated for labels that occur once
    ([is_unique]), for Sales and Profit columns made of integer amounts
    ([numeric_column]) and for amounts whose absolute values add up to at
    most 2^53 ([exactly_summable]), where every addition of the script is
    exact whatever the order of the addends. *)

From Stdlib Require Import List String Ascii ZArith Bool Arith Lia.
From Stdlib Require Import Permutation Sorted.
Import ListNotations.
Local Open Scope string_scope.
Local Open Scope Z_scope.

(** ** Exceptions and the error monad *)

Inductive exn : Type :=
| FileNotFoundError (msg : string)
| KeyError (msg : string)
| ValueError (msg : string)
| ReadError.

Inductive result (A : Type) : Type :=
| Ok (a : A)
| Raise (e : exn).
Arguments Ok {A} a.
Arguments Raise {A} e.

Definition bind {A B : Type} (m : result A) (k : A -> result B) : result B :=
  match m with
  | Ok a => k a
  | Raise e => Raise e
  end.

Notation "x <- m ;; k" := (bind m (fun x => k))
  (at level 61, m at next level, right associativity).

(** ** Python text primitives *)

Module Py.

(** [str.isspace] on one character of the Latin-1 range, which is also what
    the regular expression class [\s] matches on [str] patterns. *)
Definition is_space (c : ascii) : bool :=
  let n := nat_of_ascii c in
  (((9 <=? n) && (n <=? 13)) || ((28 <=? n) && (n <=? 31))
   || (n =? 32) || (n =? 133) || (n =? 160))%nat.

Definition dot : ascii := ".".
Definition space : ascii := " ".

(** [re.sub(r"\.", " ", s)] *)
Fixpoint sub_dots (s : string) : string :=
  match s with
  | EmptyString => EmptyString
  | String c r => String (if Ascii.eqb c dot then space else c) (sub_dots r)
  end.

(** [re.sub(r"\s+", " ", s)]: every maximal run of white space becomes one
    space.  [in_run] tells that the previous character belonged to a run
    whose replacement has been emitted already. *)
Fixpoint sub_spaces_from (in_run : bool) (s : string) : string :=
  match s with
  | EmptyString => EmptyString
  | String c r =>
      if is_space c
      then (if in_run then sub_spaces_from true r
            else String space (sub_spaces_from true r))
      else String c (sub_spaces_from false r)
  end.

Definition sub_spaces (s : string) : string := sub_spaces_from false s.

Fixpoint lstrip (s : string) : string :=
  match s with
  | EmptyString => EmptyString
  | String c r => if is_space c then lstrip r else s
  end.

Fixpoint rstrip (s : string) : string :=
  match s with
  | EmptyString => EmptyString
  | String c r =>
      match rstrip r with
      | EmptyString => if is_space c then EmptyString else String c EmptyString
      | r' => String c r'
      end
  end.

(** [str.strip()] *)
Definition strip (s : string) : string := rstrip (lstrip s).

(** *** [repr] of a [str] and of a list of [str] *)

Definition squote : ascii := "'".
Definition dquote : ascii := ascii_of_nat 34.
Definition backslash : ascii := "\".

Fixpoint contains (q : ascii) (s : string) : bool :=
  match s with
  | EmptyString => false
  | String c r => Ascii.eqb c q || contains q r
  end.

Definition hex_digit (n : nat) : ascii :=
  nth n ["0"; "1"; "2"; "3"; "4"; "5"; "6"; "7"; "8"; "9";
         "a"; "b"; "c"; "d"; "e"; "f"]%char "0"%char.

Definition is_printable (c : ascii) : bool :=
  let n := nat_of_ascii c in
  (((32 <=? n) && (n <=? 126)) || ((161 <=? n) && negb (n =? 173)))%nat.

Definition repr_char (quote c : ascii) : string :=
  let n := nat_of_ascii c in
  if Ascii.eqb c quote || Ascii.eqb c backslash
  then String backslash (String c EmptyString)
  else if (n =? 9)%nat then String backslash "t"
  else if (n =? 10)%nat then String backslash "n"
  else if (n =? 13)%nat then String backslash "r"
  else if is_printable c then String c EmptyString
  else String backslash
         (String "x" (String (hex_digit (n / 16)) (String (hex_digit (n mod 16)) EmptyString))).

Fixpoint repr_body (quote : ascii) (s : string) : string :=
  match s with
  | EmptyString => EmptyString
  | String c r => repr_char quote c ++ repr_body quote r
  end.

Definition repr (s : string) : string :=
  let quote := if contains squote s && negb (contains dquote s) then dquote else squote in
  String quote (repr_body quote s ++ String quote EmptyString).

Fixpoint join (sep : string) (l : list string) : string :=
  match l with
  | [] => EmptyString
  | [x] => x
  | x :: t => x ++ sep ++ join sep t
  end.

Definition repr_list (l : list string) : string :=
  "[" ++ join ", " (map repr l) ++ "]".

(** *** Sorting

    A stable insertion sort stands for Python's [sorted] and for the sorts of
    pandas; nothing below depends on how ties are ordered. *)

Section Sort.
Context {A : Type} (le : A -> A -> bool).

Fixpoint insert (x : A) (l : list A) : list A :=
  match l with
  | [] => [x]
  | y :: t => if le x y then x :: l else y :: insert x t
  end.

Fixpoint sort (l : list A) : list A :=
  match l with
  | [] => []
  | x :: t => insert x (sort t)
  end.
End Sort.

End Py.

(** ** Cells and frames *)

(** One cell.  [Null] stands for every missing marker of pandas ([NaN],
    [None], [NaT]). *)
Inductive value : Type :=
| Null
| Num (z : Z)
| Str (s : string)
| Timestamp (t : Z).

Definition value_eq_dec (a b : value) : {a = b} + {a <> b}.
Proof. decide equality; first [apply Z.eq_dec | apply string_dec]. Defined.

Definition value_eqb (a b : value) : bool :=
  if value_eq_dec a b then true else false.

Definition notna (v : value) : bool :=
  match v with
  | Null => false
  | _ => true
  end.

(** The order used for sorting a column: numbers, then text by code point,
    then time stamps, missing values last.  (Python refuses to compare text
    with numbers; the columns of the file are homogeneous.) *)
Definition value_leb (a b : value) : bool :=
  match a, b with
  | _, Null => true
  | Null, _ => false
  | Num x, Num y => x <=? y
  | Num _, _ => true
  | Str _, Num _ => false
  | Str x, Str y => String.leb x y
  | Str _, Timestamp _ => true
  | Timestamp x, Timestamp y => x <=? y
  | Timestamp _, _ => false
  end.

(** Descending order of [sort_values(ascending=False)]: the order is
    reversed but missing values stay last. *)
Definition value_geb_nalast (a b : value) : bool :=
  match a, b with
  | _, Null => true
  | Null, _ => false
  | _, _ => value_leb b a
  end.

Definition value_ltb (a b : value) : bool :=
  value_leb a b && negb (value_eqb a b).

Definition row : Type := list value.

Record DataFrame : Type := mkDataFrame {
  columns : list string;
  data : list row
}.

(** ** pandas primitives *)

Fixpoint get_loc (c : string) (cols : list string) : option nat :=
  match cols with
  | [] => None
  | x :: t => if String.eqb c x then Some 0%nat
              else option_map S (get_loc c t)
  end.

Definition has_column (df : DataFrame) (c : string) : bool :=
  existsb (String.eqb c) (columns df).

(** Position of the column that [df[c]] reads; a [KeyError] when there is
    none. *)
Definition getcol (df : DataFrame) (c : string) : result nat :=
  match get_loc c (columns df) with
  | Some i => Ok i
  | None => Raise (KeyError c)
  end.

Definition cell (i : nat) (r : row) : value := nth i r Null.

Definition series (i : nat) (df : DataFrame) : list value :=
  map (cell i) (data df).

Fixpoint set_cell (i : nat) (v : value) (r : row) : row :=
  match i, r with
  | O, [] => [v]
  | O, _ :: t => v :: t
  | S j, [] => Null :: set_cell j v []
  | S j, x :: t => x :: set_cell j v t
  end.

(** [df[c] = s] for an existing column at position [i]. *)
Definition set_series (i : nat) (s : list value) (df : DataFrame) : DataFrame :=
  mkDataFrame (columns df)
    (map (fun rv => set_cell i (snd rv) (fst rv)) (combine (data df) s)).

(** [df[mask]] with the mask given row by row. *)
Definition select (keep : row -> bool) (df : DataFrame) : DataFrame :=
  mkDataFrame (columns df) (filter keep (data df)).

(** A row survives [dropna(subset=...)] when every cell under a label of the
    subset is present. *)
Fixpoint complete (subset cols : list string) (r : row) : bool :=
  match cols with
  | [] => true
  | c :: cs =>
      (negb (existsb (String.eqb c) subset) || notna (cell 0 r))
      && complete subset cs (tl r)
  end.

Definition dropna (subset : list string) (df : DataFrame) : result DataFrame :=
  match find (fun c => negb (has_column df c)) subset with
  | Some c => Raise (KeyError c)
  | None => Ok (select (complete subset (columns df)) df)
  end.

(** [Series.dropna()] *)
Definition dropna_series (s : list value) : list value := filter notna s.

(** [Series.unique()]: distinct values in order of first appearance. *)
Fixpoint unique (s : list value) : list value :=
  match s with
  | [] => []
  | x :: t => x :: filter (fun y => negb (value_eqb x y)) (unique t)
  end.

(** [Series.isin(values)] on one cell. *)
Definition isin (values : list value) (v : value) : bool :=
  existsb (value_eqb v) values.

Definition num_of (v : value) : Z :=
  match v with
  | Num z => z
  | _ => 0
  end.

(** [Series.sum()] of a numeric column; missing cells are skipped.  (Cells
    of another kind do not occur in a numeric column and count for
    nothing.) *)
Definition sum (s : list value) : Z :=
  fold_right (fun v acc => num_of v + acc) 0 s.

Fixpoint getcols (df : DataFrame) (cs : list string) : result (list nat) :=
  match cs with
  | [] => Ok []
  | c :: t => i <- getcol df c ;; js <- getcols df t ;; Ok (i :: js)
  end.

(** [df.groupby(key, as_index=False)[vals].sum()]: one row per distinct
    present key, keys in ascending order, each value column summed over the
    rows of the group; rows with a missing key belong to no group. *)
Definition groupby_sum (key : string) (vals : list string) (df : DataFrame)
  : result DataFrame :=
  k <- getcol df key ;;
  js <- getcols df vals ;;
  let keys := Py.sort value_leb (unique (dropna_series (series k df))) in
  let group g := filter (fun r => value_eqb (cell k r) g) (data df) in
  Ok (mkDataFrame (key :: vals)
        (map (fun g => g :: map (fun j => Num (sum (map (cell j) (group g)))) js) keys)).

(** [df.sort_values(by, ascending=...)] *)
Definition sort_values (by_ : string) (ascending : bool) (df : DataFrame)
  : result DataFrame :=
  i <- getcol df by_ ;;
  let le := if ascending then value_leb else value_geb_nalast in
  Ok (mkDataFrame (columns df)
        (Py.sort (fun r1 r2 => le (cell i r1) (cell i r2)) (data df))).

Definition head (n : nat) (df : DataFrame) : DataFrame :=
  mkDataFrame (columns df) (firstn n (data df)).

(** [df.empty]: some axis has length zero. *)
Definition empty (df : DataFrame) : bool :=
  match columns df, data df with
  | [], _ => true
  | _, [] => true
  | _, _ => false
  end.

(** ** The file system seen by the script *)

(** A path is the list of its components, as [pathlib] keeps them. *)
Definition Path : Type := list string.

Definition div (p : Path) (name : string) : Path := (p ++ [name])%list.

Record Env : Type := mkEnv {
  script_dir : Path;                        (* Path(__file__).parent *)
  path_exists : Path -> bool;               (* Path.exists() *)
  read_csv : Path -> option DataFrame       (* pd.read_csv; None when it raises *)
}.

(** ** The loader *)

Definition candidates (env : Env) : list Path :=
  [ div (script_dir env) "superstore.csv";
    div (div (script_dir env) "data") "superstore.csv";
    ["superstore.csv"];
    ["data"; "superstore.csv"] ].

Definition not_found_message : string :=
  "Could not find 'superstore.csv'. Place it in the same folder as this app "
  ++ "or inside a 'data/' folder in the repo.".

Definition normalize_name (c : string) : string :=
  Py.strip (Py.sub_spaces (Py.sub_dots c)).

(** [df.rename(columns={old: new})] on the labels. *)
Definition rename (old new : string) (cols : list string) : list string :=
  map (fun c => if String.eqb c old then new else c) cols.

Definition normalize_columns (cols : list string) : list string :=
  rename "Sub Category" "Sub-Category" (map normalize_name cols).

Definition required : list string :=
  ["Sales"; "Profit"; "Order Date"; "Region"; "Category"; "Sub-Category";
   "Customer Name"].

Definition missing_columns (cols : list string) : list string :=
  filter (fun c => negb (existsb (String.eqb c) cols)) required.

Definition schema_message (missing cols : list string) : string :=
  "Missing required columns: " ++ Py.repr_list missing
  ++ ". Found columns: " ++ Py.repr_list cols.

Definition is_unique (c : string) (cols : list string) : bool :=
  (List.length (filter (String.eqb c) cols) =? 1)%nat.

Section Loader.

(** What [pd.to_datetime(..., errors="coerce")] makes of one present cell
    of a column that is not a time stamp yet: [None] when the cell cannot
    be read as a date.  pandas may guess the format from the whole column,
    which is therefore the first argument. *)
Variable coerce : list value -> value -> option Z.

(** One cell of the column [s] after [to_datetime]: a time stamp, or
    missing when the cell was missing or cannot be read. *)
Definition coerced (s : list value) (v : value) : value :=
  match v with
  | Null => Null
  | Timestamp t => Timestamp t
  | _ => match coerce s v with
         | Some t => Timestamp t
         | None => Null
         end
  end.

Definition to_datetime (s : list value) : list value := map (coerced s) s.

(** The three cleaning statements of [load_data]. *)
Definition clean (df : DataFrame) : result DataFrame :=
  df1 <- dropna ["Sales"; "Profit"] df ;;
  i <- getcol df1 "Order Date" ;;
  if negb (is_unique "Order Date" (columns df1))
  then Raise (ValueError "cannot assemble with duplicate keys")
  else
    let df2 := set_series i (to_datetime (series i df1)) df1 in
    dropna ["Order Date"] df2.

(** What [load_data] does with the frame it has read: normalise the
    labels, validate, clean. *)
Definition prepare (raw : DataFrame) : result DataFrame :=
  let df := mkDataFrame (normalize_columns (columns raw)) (data raw) in
  let missing := missing_columns (columns df) in
  match missing with
  | _ :: _ => Raise (KeyError (schema_message missing (columns df)))
  | [] => clean df
  end.

Definition load_data (env : Env) : result DataFrame :=
  match find (path_exists env) (candidates env) with
  | None => Raise (FileNotFoundError not_found_message)
  | Some csv_path =>
      match read_csv env csv_path with
      | None => Raise ReadError
      | Some raw => prepare raw
      end
  end.

End Loader.

(** ** Side bar: options and filters *)

Record FilterSelection : Type := mkSelection {
  region_filter : list value;
  category_filter : list value;
  sub_category_filter : list value
}.

(** [sorted(df[c].dropna().unique().tolist())] *)
Definition options (c : string) (df : DataFrame) : result (list value) :=
  i <- getcol df c ;;
  Ok (Py.sort value_leb (unique (dropna_series (series i df)))).

Definition default_selection (df : DataFrame) : result FilterSelection :=
  r <- options "Region" df ;;
  c <- options "Category" df ;;
  s <- options "Sub-Category" df ;;
  Ok (mkSelection r c s).

(** [if chosen: df = df[df[c].isin(chosen)]] *)
Definition filter_isin (c : string) (chosen : list value) (df : DataFrame)
  : result DataFrame :=
  match chosen with
  | [] => Ok df
  | _ :: _ => i <- getcol df c ;; Ok (select (fun r => isin chosen (cell i r)) df)
  end.

Definition apply_filters (df : DataFrame) (sel : FilterSelection)
  : result DataFrame :=
  f1 <- filter_isin "Region" (region_filter sel) df ;;
  f2 <- filter_isin "Category" (category_filter sel) f1 ;;
  filter_isin "Sub-Category" (sub_category_filter sel) f2.

(** ** Aggregates *)

Definition total_sales (fv : DataFrame) : result Z :=
  i <- getcol fv "Sales" ;; Ok (sum (series i fv)).

Definition total_profit (fv : DataFrame) : result Z :=
  i <- getcol fv "Profit" ;; Ok (sum (series i fv)).

Definition top_customers (fv : DataFrame) : result DataFrame :=
  g <- groupby_sum "Customer Name" ["Sales"] fv ;;
  s <- sort_values "Sales" false g ;;
  Ok (head 5 s).

Definition category_summary (fv : DataFrame) : result DataFrame :=
  g <- groupby_sum "Category" ["Sales"; "Profit"] fv ;;
  sort_values "Sales" false g.

Definition sales_time (fv : DataFrame) : result DataFrame :=
  g <- groupby_sum "Order Date" ["Sales"] fv ;;
  sort_values "Order Date" true g.

(** ** The aggregates in the words of the specification

    Reference definitions, to compare the pandas pipelines with. *)

(** One pair per customer that occurs in the view: the name and the sum of
    Sales over the records of that customer.  [k] and [j] are the positions
    of the name and of the Sales column. *)
Definition spec_customer_totals (k j : nat) (fv : DataFrame) : list (value * Z) :=
  map (fun c => (c, sum (map (cell j) (filter (fun r => value_eqb (cell k r) c) (data fv)))))
      (unique (dropna_series (series k fv))).

(** A dimension lets a record through when nothing is chosen for it or when
    the record's value is one of the chosen ones. *)
Definition spec_dimension_ok (chosen : list value) (v : value) : bool :=
  match chosen with
  | [] => true
  | _ :: _ => isin chosen v
  end.

(** The three dimensions, combined with AND; [r], [c], [s] are the positions
    of Region, Category and Sub-Category. *)
Definition spec_keeps (r c s : nat) (sel : FilterSelection) (rec : row) : bool :=
  spec_dimension_ok (region_filter sel) (cell r rec)
  && spec_dimension_ok (category_filter sel) (cell c rec)
  && spec_dimension_ok (sub_category_filter sel) (cell s rec).

Definition same_members (l l' : list value) : Prop :=
  forall v, In v l <-> In v l'.

(** Each selection, read as a set, is the full option set of its
    dimension. *)
Definition full_selection (df : DataFrame) (sel : FilterSelection) : Prop :=
  exists o_r o_c o_s,
    options "Region" df = Ok o_r /\ same_members (region_filter sel) o_r
    /\ options "Category" df = Ok o_c /\ same_members (category_filter sel) o_c
    /\ options "Sub-Category" df = Ok o_s /\ same_members (sub_category_filter sel) o_s.

(** [l] is [l'] with some elements left out, the others in their order. *)
Inductive subsequence {A : Type} : list A -> list A -> Prop :=
| subsequence_nil : subsequence [] []
| subsequence_keep x l l' : subsequence l l' -> subsequence (x :: l) (x :: l')
| subsequence_skip x l l' : subsequence l l' -> subsequence l (x :: l').

(** ** One run of the page below the side bar *)

Record SummaryReport : Type := mkReport {
  rep_total_sales : Z;
  rep_total_profit : Z;
  rep_top_customers : DataFrame;
  rep_category_summary : DataFrame;
  rep_sales_time : DataFrame
}.

Inductive outcome : Type :=
| Warned (msg : string)            (* st.warning(...); st.stop() *)
| Rendered (rep : SummaryReport).

Definition empty_warning : string :=
  "No data matches the selected filters. Please adjust your selections.".

Definition render (df : DataFrame) (sel : FilterSelection) : result outcome :=
  filtered_df <- apply_filters df sel ;;
  if empty filtered_df then Ok (Warned empty_warning)
  else
    ts <- total_sales filtered_df ;;
    tp <- total_profit filtered_df ;;
    tc <- top_customers filtered_df ;;
    cs <- category_summary filtered_df ;;
    st <- sales_time filtered_df ;;
    Ok (Rendered (mkReport ts tp tc cs st)).

(** ** A date reader and sample data

    [iso_date] is one possible behaviour of the date coercion: it reads the
    strict form YYYY-MM-DD (and takes a number as nanoseconds since the
    epoch, as pandas does).  It is used to run the model on the sample
    frames below; the properties are proved for every coercion. *)

Definition digit (c : ascii) : option Z :=
  let n := nat_of_ascii c in
  if ((48 <=? n) && (n <=? 57))%nat then Some (Z.of_nat (n - 48)) else None.

Fixpoint digits (acc : Z) (s : string) : option Z :=
  match s with
  | EmptyString => Some acc
  | String c r =>
      match digit c with
      | Some d => digits (10 * acc + d) r
      | None => None
      end
  end.

Definition is_leap (y : Z) : bool :=
  ((y mod 4 =? 0) && negb (y mod 100 =? 0)) || (y mod 400 =? 0).

Definition days_in_month (y m : Z) : Z :=
  if m =? 2 then (if is_leap y then 29 else 28)
  else if (m =? 4) || (m =? 6) || (m =? 9) || (m =? 11) then 30 else 31.

(** Days between 1970-01-01 and the given civil date. *)
Definition days_from_civil (y m d : Z) : Z :=
  let y' := if m <=? 2 then y - 1 else y in
  let era := y' / 400 in
  let yoe := y' - era * 400 in
  let mp := (m + 9) mod 12 in
  let doy := (153 * mp + 2) / 5 + d - 1 in
  let doe := yoe * 365 + yoe / 4 - yoe / 100 + doy in
  era * 146097 + doe - 719468.

Definition iso_date_of_string (s : string) : option Z :=
  if negb ((String.length s =? 10)%nat
           && String.eqb (substring 4 1 s) "-" && String.eqb (substring 7 1 s) "-")
  then None
  else
    match digits 0 (substring 0 4 s), digits 0 (substring 5 2 s),
          digits 0 (substring 8 2 s) with
    | Some y, Some m, Some d =>
        if (1 <=? m) && (m <=? 12) && (1 <=? d) && (d <=? days_in_month y m)
        then Some (days_from_civil y m d * 86400000000000)
        else None
    | _, _, _ => None
    end.

Definition iso_date (column : list value) (v : value) : option Z :=
  match v with
  | Str s => iso_date_of_string s
  | Num z => Some z
  | _ => None
  end.

Definition path_eqb (p q : Path) : bool :=
  if list_eq_dec string_dec p q then true else false.

(** An installation whose only file is [data/superstore.csv] under the
    working directory, holding [raw]. *)
Definition env_with (raw : DataFrame) : Env :=
  mkEnv ["srv"; "app"]
        (fun p => path_eqb p ["data"; "superstore.csv"])
        (fun p => if path_eqb p ["data"; "superstore.csv"] then Some raw else None).

Definition no_file_env : Env :=
  mkEnv ["srv"; "app"] (fun _ => false) (fun _ => None).

(** The three records of the worked scenario, preceded by a record without
    Sales and followed by one whose date cannot be read; the header uses the
    dotted spelling and the unhyphenated "Sub Category". *)
Definition scenario_raw : DataFrame :=
  mkDataFrame
    ["Order.Date"; "Customer  Name"; "Region"; "Category"; "Sub Category";
     "Sales"; " Profit"]
    [ [Str "2021-01-03"; Str "C"; Str "East"; Str "Tech"; Str "Phones"; Null; Num 1];
      [Str "2021-01-01"; Str "A"; Str "East"; Str "Tech"; Str "Phones"; Num 100; Num 10];
      [Str "2021-01-02"; Str "B"; Str "West"; Str "Tech"; Str "Phones"; Num 200; Num (-5)];
      [Str "2021-01-01"; Str "A"; Str "East"; Str "Furniture"; Str "Chairs"; Num 50; Num 5];
      [Str "someday"; Str "D"; Str "West"; Str "Tech"; Str "Phones"; Num 7; Num 1] ].

Definition scenario_columns : list string :=
  ["Order Date"; "Customer Name"; "Region"; "Category"; "Sub-Category";
   "Sales"; "Profit"].

Definition jan (d : Z) : value := Timestamp ((18627 + d) * 86400000000000).

Definition scenario_dataset : DataFrame :=
  mkDataFrame scenario_columns
    [ [jan 1; Str "A"; Str "East"; Str "Tech"; Str "Phones"; Num 100; Num 10];
      [jan 2; Str "B"; Str "West"; Str "Tech"; Str "Phones"; Num 200; Num (-5)];
      [jan 1; Str "A"; Str "East"; Str "Furniture"; Str "Chairs"; Num 50; Num 5] ].

(** The scenario's records with the first two exchanged. *)
Definition scenario_shuffled : DataFrame :=
  mkDataFrame scenario_columns
    [ [jan 2; Str "B"; Str "West"; Str "Tech"; Str "Phones"; Num 200; Num (-5)];
      [jan 1; Str "A"; Str "East"; Str "Tech"; Str "Phones"; Num 100; Num 10];
      [jan 1; Str "A"; Str "East"; Str "Furniture"; Str "Chairs"; Num 50; Num 5] ].

Definition east_only : FilterSelection := mkSelection [Str "East"] [] [].



(** Every option of every dimension of [scenario_dataset]. *)
Definition scenario_all_options : FilterSelection :=
  mkSelection [Str "East"; Str "West"] [Str "Furniture"; Str "Tech"]
              [Str "Chairs"; Str "Phones"].

(** A file in which the second record has an empty Region and an empty
    Category cell. *)
Definition gaps_raw : DataFrame :=
  mkDataFrame scenario_columns
    [ [Str "2021-01-01"; Str "A"; Str "East"; Str "Tech"; Str "Phones"; Num 100; Num 10];
      [Str "2021-01-02"; Str "B"; Null; Null; Str "Phones"; Num 200; Num 20] ].

Definition gaps_dataset : DataFrame :=
  mkDataFrame scenario_columns
    [ [jan 1; Str "A"; Str "East"; Str "Tech"; Str "Phones"; Num 100; Num 10];
      [jan 2; Str "B"; Null; Null; Str "Phones"; Num 200; Num 20] ].

(** A dataset in which no record has a Region. *)
Definition regionless_dataset : DataFrame :=
  mkDataFrame scenario_columns
    [ [jan 1; Str "A"; Null; Str "Tech"; Str "Phones"; Num 100; Num 10];
      [jan 2; Str "B"; Null; Str "Tech"; Str "Phones"; Num 200; Num 20] ].

(** Every option of every dimension of [regionless_dataset]: Region has
    none. *)
Definition regionless_all_options : FilterSelection :=
  mkSelection [] [Str "Tech"] [Str "Phones"].

(** Seven records of six customers. *)
Definition six_customers : DataFrame :=
  mkDataFrame scenario_columns
    [ [jan 1; Str "A"; Str "East"; Str "Tech"; Str "Phones"; Num 100; Num 10];
      [jan 2; Str "B"; Str "West"; Str "Tech"; Str "Phones"; Num 200; Num (-5)];
      [jan 1; Str "A"; Str "East"; Str "Furniture"; Str "Chairs"; Num 50; Num 5];
      [jan 3; Str "C"; Str "West"; Str "Office"; Str "Paper"; Num 70; Num 7];
      [jan 3; Str "D"; Str "East"; Str "Office"; Str "Paper"; Num 40; Num 4];
      [jan 4; Str "E"; Str "West"; Str "Tech"; Str "Phones"; Num 30; Num 3];
      [jan 2; Str "F"; Str "East"; Str "Furniture"; Str "Chairs"; Num 10; Num 1] ].

Definition six_customers_sales : list Z := [100; 200; 50; 70; 40; 30; 10].

Definition six_customers_profits : list Z := [10; -5; 5; 7; 4; 3; 1].

(** Every option of every dimension of [gaps_dataset]. *)
Definition gaps_all_options : FilterSelection :=
  mkSelection [Str "East"] [Str "Tech"] [Str "Phones"].

(** A file without a Region column. *)
Definition no_region_raw : DataFrame :=
  mkDataFrame
    ["Order Date"; "Customer Name"; "Category"; "Sub-Category"; "Sales"; "Profit"]
    [ [Str "2021-01-01"; Str "A"; Str "Tech"; Str "Phones"; Num 100; Num 10] ].

(** ** Notions used to state and prove the properties *)

(** *** The shape of a normalised label *)

Fixpoint no_dot (s : string) : bool :=
  match s with
  | EmptyString => true
  | String c r => negb (Ascii.eqb c Py.dot) && no_dot r
  end.

(** Every white space character is a plain space and does not follow
    another one ([after_ws] tells what the previous character was). *)
Fixpoint squeezed (after_ws : bool) (s : string) : bool :=
  match s with
  | EmptyString => true
  | String c r =>
      if Py.is_space c then negb after_ws && Ascii.eqb c Py.space && squeezed true r
      else squeezed false r
  end.

Definition starts_clean (s : string) : bool :=
  match s with
  | EmptyString => true
  | String c _ => negb (Py.is_space c)
  end.

Definition normal (s : string) : Prop :=
  no_dot s = true /\ squeezed false s = true
  /\ starts_clean s = true /\ Py.rstrip s = s.

(** *** Groups *)

Definition zsum (l : list Z) : Z := fold_right Z.add 0 l.

(** The keys of [groupby(...)] on the column at position [k]. *)
Definition group_keys (k : nat) (df : DataFrame) : list value :=
  Py.sort value_leb (unique (dropna_series (series k df))).

Definition group_sum (k j : nat) (df : DataFrame) (g : value) : Z :=
  sum (map (cell j) (filter (fun r => value_eqb (cell k r) g) (data df))).

(** A row of a two-column summary as a pair, and back. *)
Definition pair_of_row (r : row) : value * Z := (cell 0 r, num_of (cell 1 r)).

Definition row_of_pair (p : value * Z) : row := [fst p; Num (snd p)].

(** *** What the loader does to the records *)

(** A record as [load_data] returns it: the cell at position [d] (the Order
    Date) coerced, [kept] being the records whose dates are coerced
    together. *)
Definition date_fixed (coerce : list value -> value -> option Z) (d : nat)
    (kept : list row) (r : row) : row :=
  set_cell d (coerced coerce (map (cell d) kept) (cell d r)) r.

(** The date of the record can be read. *)
Definition date_readable (coerce : list value -> value -> option Z) (d : nat)
    (kept : list row) (r : row) : bool :=
  notna (coerced coerce (map (cell d) kept) (cell d r)).

(** *** Dimensions and option lists *)

(** Some record has a value in the column at position [i]. *)
Definition dimension_live (i : nat) (df : DataFrame) : bool :=
  existsb notna (series i df).

(** What the default selection asks of a record in one dimension. *)
Definition default_keeps (i : nat) (df : DataFrame) (rec : row) : bool :=
  negb (dimension_live i df) || notna (cell i rec).

(** *** Category Summary in the words of its statement *)

(** One entry per category that occurs in the view: the category, the sum of
    Sales and the sum of Profit over its records. *)
Definition spec_category_totals (c j p : nat) (fv : DataFrame)
  : list (value * (Z * Z)) :=
  map (fun g => (g, (group_sum c j fv g, group_sum c p fv g)))
      (unique (dropna_series (series c fv))).

Definition triple_of_row (r : row) : value * (Z * Z) :=
  (cell 0 r, (num_of (cell 1 r), num_of (cell 2 r))).

Definition row_of_triple (t : value * (Z * Z)) : row :=
  [fst t; Num (fst (snd t)); Num (snd (snd t))].

(** *** Labels, stated without the functions that normalise them *)

(** The last character is not white space. *)
Fixpoint ends_clean (s : string) : bool :=
  match s with
  | EmptyString => true
  | String c r =>
      match r with
      | EmptyString => negb (Py.is_space c)
      | String _ _ => ends_clean r
      end
  end.

(** No dot; white space only as single plain spaces, none at either end. *)
Definition canonical (s : string) : Prop :=
  no_dot s = true /\ squeezed false s = true
  /\ starts_clean s = true /\ ends_clean s = true.

(** *** Text inside a message *)

(** [p] occurs in [s]. *)
Definition occurs_in (p s : string) : Prop :=
  exists a b, s = a ++ p ++ b.

(** A printable ASCII character other than the single quote and the
    backslash. *)
Definition plain_char (c : ascii) : bool :=
  let n := nat_of_ascii c in
  ((32 <=? n) && (n <=? 126) && negb (n =? 39) && negb (n =? 92))%nat.

Fixpoint plain_label (s : string) : bool :=
  match s with
  | EmptyString => true
  | String c r => plain_char c && plain_label r
  end.

(** The label between single quotes. *)
Definition quoted (c : string) : string := "'" ++ c ++ "'".

(** *** Amounts *)

(** The cells of the column at position [j] are the integer amounts
    [amounts], record by record. *)
Definition numeric_column (j : nat) (df : DataFrame) (amounts : list Z) : Prop :=
  series j df = map Num amounts.

(** The absolute values add up to at most 2^53: every sum of some of the
    amounts, in any order, is exact in float64 and in int64. *)
Definition exactly_summable (amounts : list Z) : Prop :=
  zsum (map Z.abs amounts) <= 2 ^ 53.

(** The amounts of the records whose key is [g], added up; [keys] and
    [amounts] run over the records in parallel. *)
Fixpoint amount_of (g : value) (keys : list value) (amounts : list Z) : Z :=
  match keys, amounts with
  | k :: ks, a :: rest =>
      (if value_eq_dec k g then a else 0) + amount_of g ks rest
  | _, _ => 0
  end.

(** *** Text columns *)

Definition text_cell (o : option string) : value :=
  match o with
  | Some s => Str s
  | None => Null
  end.

(** The cells of the column at position [i] are text or missing. *)
Definition text_column (i : nat) (df : DataFrame) (cells : list (option string)) : Prop :=
  series i df = map text_cell cells.

(** *** Dimensions *)

(** In the column at position [i] either no record has a value or every
    record has one. *)
Definition dimension_settled (i : nat) (df : DataFrame) : Prop :=
  (forall rec, In rec (data df) -> cell i rec = Null)
  \/ (forall rec, In rec (data df) -> cell i rec <> Null).

(** * Properties *)

(** ** Column names: the normal form reached by [normalize_name] *)

Module NameFacts.
Import Py.

Lemma sub_dots_no_dot s : no_dot (sub_dots s) = true.
Proof.
  induction s as [|c r IH]; simpl; [reflexivity|].
  rewrite IH, andb_true_r.
  destruct (Ascii.eqb c dot) eqn:E; [reflexivity | now rewrite E].
Qed.

Lemma sub_dots_fix s : no_dot s = true -> sub_dots s = s.
Proof.
  induction s as [|c r IH]; simpl; [reflexivity|].
  intros H. apply andb_true_iff in H as [Hc Hr].
  apply negb_true_iff in Hc. rewrite Hc, IH by assumption. reflexivity.
Qed.

Lemma sub_spaces_no_dot b s : no_dot s = true -> no_dot (sub_spaces_from b s) = true.
Proof.
  revert b. induction s as [|c r IH]; intros b; simpl; [reflexivity|].
  intros H. apply andb_true_iff in H as [Hc Hr].
  destruct (is_space c); [destruct b|]; simpl; rewrite ?Hc, IH; auto.
Qed.

Lemma sub_spaces_squeezed b s : squeezed b (sub_spaces_from b s) = true.
Proof.
  revert b. induction s as [|c r IH]; intros b; simpl; [reflexivity|].
  destruct (is_space c) eqn:E.
  - destruct b; [apply IH|]. simpl. apply IH.
  - simpl. rewrite E. apply IH.
Qed.

Lemma sub_spaces_fix b s : squeezed b s = true -> sub_spaces_from b s = s.
Proof.
  revert b. induction s as [|c r IH]; intros b; simpl; [reflexivity|].
  destruct (is_space c).
  - intros H. apply andb_true_iff in H as [H Hr].
    apply andb_true_iff in H as [Hb Hc].
    apply negb_true_iff in Hb. subst b.
    apply Ascii.eqb_eq in Hc. subst c.
    now rewrite IH.
  - intros H. now rewrite IH.
Qed.

Lemma lstrip_no_dot s : no_dot s = true -> no_dot (lstrip s) = true.
Proof.
  induction s as [|c r IH]; simpl; [reflexivity|].
  intros H. destruct (is_space c); [|exact H].
  apply andb_true_iff in H as [_ Hr]. auto.
Qed.

Lemma lstrip_squeezed b s : squeezed b s = true -> squeezed false (lstrip s) = true.
Proof.
  revert b. induction s as [|c r IH]; intros b; simpl; [reflexivity|].
  destruct (is_space c) eqn:E.
  - intros H. apply andb_true_iff in H as [_ Hr]. eauto.
  - simpl. now rewrite E.
Qed.

Lemma lstrip_starts_clean s : starts_clean (lstrip s) = true.
Proof.
  induction s as [|c r IH]; simpl; [reflexivity|].
  destruct (is_space c) eqn:E; [exact IH | simpl; now rewrite E].
Qed.

Lemma lstrip_fix s : starts_clean s = true -> lstrip s = s.
Proof.
  destruct s as [|c r]; simpl; [reflexivity|].
  intros H. apply negb_true_iff in H. now rewrite H.
Qed.

Lemma rstrip_no_dot s : no_dot s = true -> no_dot (rstrip s) = true.
Proof.
  induction s as [|c r IH]; simpl; [reflexivity|].
  intros H. apply andb_true_iff in H as [Hc Hr]. specialize (IH Hr).
  destruct (rstrip r) as [|c' r'].
  - destruct (is_space c); simpl; [reflexivity | now rewrite Hc].
  - change (negb (Ascii.eqb c dot) && no_dot (String c' r') = true).
    now rewrite Hc, IH.
Qed.

Lemma rstrip_squeezed b s : squeezed b s = true -> squeezed b (rstrip s) = true.
Proof.
  revert b. induction s as [|c r IH]; intros b; simpl; [reflexivity|].
  destruct (is_space c) eqn:E.
  - intros H. apply andb_true_iff in H as [H Hr]. specialize (IH _ Hr).
    destruct (rstrip r) as [|c' r']; [reflexivity|].
    change (squeezed b (String c (String c' r')) = true).
    cbn [squeezed]. rewrite E. cbn [squeezed] in IH. now rewrite H, IH.
  - intros H. specialize (IH _ H).
    destruct (rstrip r) as [|c' r'].
    + simpl. now rewrite E.
    + change (squeezed b (String c (String c' r')) = true).
      cbn [squeezed]. rewrite E. exact IH.
Qed.

Lemma rstrip_starts_clean s : starts_clean s = true -> starts_clean (rstrip s) = true.
Proof.
  destruct s as [|c r]; simpl; [reflexivity|].
  intros H. apply negb_true_iff in H. rewrite H.
  destruct (rstrip r); simpl; now rewrite H.
Qed.

Lemma rstrip_idem s : rstrip (rstrip s) = rstrip s.
Proof.
  induction s as [|c r IH]; simpl; [reflexivity|].
  destruct (rstrip r) as [|c' r'] eqn:Er.
  - destruct (is_space c) eqn:E; simpl; [reflexivity | now rewrite E].
  - change (rstrip (String c (String c' r')) = String c (String c' r')).
    cbn [rstrip]. cbn [rstrip] in IH. now rewrite IH.
Qed.

Lemma normalize_name_normal s : normal (normalize_name s).
Proof.
  unfold normal, normalize_name, strip, sub_spaces. repeat split.
  - apply rstrip_no_dot, lstrip_no_dot, sub_spaces_no_dot, sub_dots_no_dot.
  - apply rstrip_squeezed, (lstrip_squeezed false), sub_spaces_squeezed.
  - apply rstrip_starts_clean, lstrip_starts_clean.
  - apply rstrip_idem.
Qed.

Lemma normal_fix s : normal s -> normalize_name s = s.
Proof.
  intros (Hd & Hs & Hl & Hr).
  unfold normalize_name, strip, sub_spaces.
  now rewrite (sub_dots_fix _ Hd), (sub_spaces_fix _ _ Hs), (lstrip_fix _ Hl).
Qed.

Lemma normalize_name_idem s : normalize_name (normalize_name s) = normalize_name s.
Proof. apply normal_fix, normalize_name_normal. Qed.

End NameFacts.

(** C9. Normalising the column labels is idempotent: replacing dots,
    squeezing white space, stripping and renaming "Sub Category" leave the
    labels they have produced unchanged. *)
Theorem normalize_columns_idempotent (cols : list string) :
  normalize_columns (normalize_columns cols) = normalize_columns cols.
Proof.
  unfold normalize_columns, rename. rewrite !map_map.
  apply map_ext. intros c.
  destruct (String.eqb (normalize_name c) "Sub Category") eqn:E.
  - reflexivity.
  - now rewrite NameFacts.normalize_name_idem, E.
Qed.

(** ** The order on cells *)

Module OrderFacts.

Lemma string_leb_trans (a b c : string) :
  String.leb a b = true -> String.leb b c = true -> String.leb a c = true.
Proof.
  revert b c.
  induction a as [|x a IH]; intros [|y b] [|z c]; unfold String.leb; simpl;
    try reflexivity; try discriminate.
  specialize (IH b c). unfold String.leb in IH. unfold Ascii.compare.
  destruct (N.compare_spec (N_of_ascii x) (N_of_ascii y)) as [E1|E1|E1];
    destruct (N.compare_spec (N_of_ascii y) (N_of_ascii z)) as [E2|E2|E2];
    try discriminate; intros H1 H2.
  - rewrite E1, E2 in *. rewrite N.compare_refl. auto.
  - rewrite E1. apply N.compare_lt_iff in E2. now rewrite E2.
  - rewrite <- E2. apply N.compare_lt_iff in E1. now rewrite E1.
  - assert (E : (N_of_ascii x < N_of_ascii z)%N) by lia.
    apply N.compare_lt_iff in E. now rewrite E.
Qed.

Lemma value_leb_total (a b : value) : value_leb a b = true \/ value_leb b a = true.
Proof.
  destruct a as [|x|x|x], b as [|y|y|y]; simpl; auto;
    try (apply String.leb_total);
    destruct (Z.leb_spec x y), (Z.leb_spec y x); auto; lia.
Qed.

Lemma value_leb_trans (a b c : value) :
  value_leb a b = true -> value_leb b c = true -> value_leb a c = true.
Proof.
  destruct a, b, c; simpl; try reflexivity; try discriminate;
    try (apply string_leb_trans);
    rewrite ?Z.leb_le; lia.
Qed.

Lemma value_leb_antisym (a b : value) :
  value_leb a b = true -> value_leb b a = true -> a = b.
Proof.
  destruct a, b; simpl; try reflexivity; try discriminate.
  - rewrite !Z.leb_le. intros. f_equal. lia.
  - intros H1 H2. f_equal. now apply String.leb_antisym.
  - rewrite !Z.leb_le. intros. f_equal. lia.
Qed.

Lemma value_geb_nalast_total (a b : value) :
  value_geb_nalast a b = true \/ value_geb_nalast b a = true.
Proof.
  destruct a as [|x|x|x], b as [|y|y|y]; simpl; auto;
    try (destruct (String.leb_total x y); now auto);
    destruct (Z.leb_spec x y), (Z.leb_spec y x); auto; lia.
Qed.

Lemma value_eqb_eq (a b : value) : value_eqb a b = true <-> a = b.
Proof. unfold value_eqb. destruct (value_eq_dec a b); split; congruence. Qed.

Lemma value_eqb_refl (a : value) : value_eqb a a = true.
Proof. now apply value_eqb_eq. Qed.

Lemma value_ltb_irrefl_step (a b : value) :
  value_leb a b = true -> a <> b -> value_ltb a b = true.
Proof.
  intros H N. unfold value_ltb. rewrite H. simpl.
  apply negb_true_iff. destruct (value_eqb a b) eqn:E; [|reflexivity].
  apply value_eqb_eq in E. contradiction.
Qed.

End OrderFacts.

(** ** Sorting: the result is an ordered rearrangement *)

Module SortFacts.
Section Facts.
Context {A : Type} (le : A -> A -> bool).

Lemma insert_perm (x : A) (l : list A) : Permutation (Py.insert le x l) (x :: l).
Proof.
  induction l as [|y t IH]; simpl; [reflexivity|].
  destruct (le x y); [reflexivity|].
  rewrite IH. apply perm_swap.
Qed.

Lemma sort_perm (l : list A) : Permutation (Py.sort le l) l.
Proof.
  induction l as [|x t IH]; simpl; [reflexivity|].
  rewrite insert_perm. now constructor.
Qed.

Hypothesis le_total : forall a b, le a b = true \/ le b a = true.

Lemma insert_sorted (x : A) (l : list A) :
  Sorted (fun a b => le a b = true) l ->
  Sorted (fun a b => le a b = true) (Py.insert le x l).
Proof.
  induction 1 as [|y t Hs IH Hd]; simpl; [repeat constructor|].
  destruct (le x y) eqn:E.
  - repeat constructor; assumption.
  - constructor; [exact IH|].
    destruct (le_total x y) as [C|C]; [congruence|].
    destruct t as [|z t]; simpl; [now constructor|].
    destruct (le x z); constructor; [exact C|].
    now inversion Hd.
Qed.

Lemma sort_sorted (l : list A) : Sorted (fun a b => le a b = true) (Py.sort le l).
Proof.
  induction l as [|x t IH]; simpl; [constructor|].
  now apply insert_sorted.
Qed.
End Facts.

Lemma Sorted_map {A B : Type} (f : A -> B) (R : B -> B -> Prop) (l : list A) :
  Sorted (fun a b => R (f a) (f b)) l -> Sorted R (map f l).
Proof.
  induction 1 as [|x t Hs IH Hd]; simpl; constructor; [exact IH|].
  destruct Hd; simpl; now constructor.
Qed.

Lemma Sorted_weaken {A : Type} (P : A -> Prop) (R R' : A -> A -> Prop) (l : list A) :
  (forall a b, P a -> P b -> R a b -> R' a b) ->
  Forall P l -> Sorted R l -> Sorted R' l.
Proof.
  intros W HP HS. induction HS as [|x t Hs IH Hd]; constructor.
  - apply IH. now inversion HP.
  - inversion HP as [|? ? Px Pt]; subst.
    destruct Hd as [|y t' Rxy]; constructor.
    apply W; auto. now inversion Pt.
Qed.


End SortFacts.

(** ** Frames: labels, cells, [dropna], [unique] and sums *)

Module FrameFacts.
Import OrderFacts.

Lemma get_loc_nth_error (c : string) (cols : list string) (i : nat) :
  get_loc c cols = Some i -> nth_error cols i = Some c.
Proof.
  revert i. induction cols as [|x t IH]; intros i; simpl; [discriminate|].
  destruct (String.eqb c x) eqn:E.
  - intros [= <-]. apply String.eqb_eq in E. now subst.
  - destruct (get_loc c t) as [j|]; simpl; [|discriminate].
    intros [= <-]. simpl. now apply IH.
Qed.

Lemma get_loc_inj (a b : string) (cols : list string) (i : nat) :
  get_loc a cols = Some i -> get_loc b cols = Some i -> a = b.
Proof.
  intros Ha Hb. apply get_loc_nth_error in Ha, Hb. congruence.
Qed.

Lemma get_loc_present (c : string) (cols : list string) :
  existsb (String.eqb c) cols = true <-> exists i, get_loc c cols = Some i.
Proof.
  induction cols as [|x t IH]; simpl.
  - split; [discriminate | intros [i H]; discriminate].
  - destruct (String.eqb c x); simpl.
    + split; eauto.
    + rewrite IH. split; intros [i H].
      * rewrite H. simpl. eauto.
      * destruct (get_loc c t); [eauto | discriminate].
Qed.

Lemma getcol_present (df : DataFrame) (c : string) :
  has_column df c = true -> exists i, getcol df c = Ok i.
Proof.
  unfold has_column, getcol. intros H.
  apply get_loc_present in H as [i H]. rewrite H. eauto.
Qed.

Lemma getcol_has_column (df : DataFrame) (c : string) (i : nat) :
  getcol df c = Ok i -> has_column df c = true.
Proof.
  unfold has_column, getcol. intros H. apply get_loc_present.
  destruct (get_loc c (columns df)); [eauto | discriminate].
Qed.

Lemma getcol_get_loc (df : DataFrame) (c : string) (i : nat) :
  getcol df c = Ok i <-> get_loc c (columns df) = Some i.
Proof.
  unfold getcol. destruct (get_loc c (columns df)); split; congruence.
Qed.

Lemma getcol_same_columns (df df' : DataFrame) (c : string) :
  columns df' = columns df -> getcol df' c = getcol df c.
Proof. unfold getcol. now intros ->. Qed.

Lemma cell_tl (i : nat) (r : row) : cell (S i) r = cell i (tl r).
Proof. destruct r; [now destruct i | reflexivity]. Qed.

Lemma complete_notna (subset cols : list string) (r : row) (c : string) (i : nat) :
  complete subset cols r = true -> existsb (String.eqb c) subset = true ->
  get_loc c cols = Some i -> notna (cell i r) = true.
Proof.
  revert r i. induction cols as [|x t IH]; intros r i; simpl; [discriminate|].
  intros H Hc. apply andb_true_iff in H as [Hx Ht].
  destruct (String.eqb c x) eqn:E.
  - intros [= <-]. apply String.eqb_eq in E. subst x.
    rewrite Hc in Hx. exact Hx.
  - destruct (get_loc c t) as [j|] eqn:G; simpl; [|discriminate].
    intros [= <-]. rewrite cell_tl. now apply IH.
Qed.

Lemma cell_set_cell_same (i : nat) (v : value) (r : row) :
  cell i (set_cell i v r) = v.
Proof.
  unfold cell. revert r. induction i as [|i IH]; intros [|x t]; simpl; auto.
Qed.

Lemma cell_set_cell_other (i j : nat) (v : value) (r : row) :
  i <> j -> cell j (set_cell i v r) = cell j r.
Proof.
  unfold cell. revert j r.
  induction i as [|i IH]; intros [|j] [|x t] H; simpl; try congruence; auto.
  - now destruct j.
  - rewrite IH by congruence. now destruct j.
Qed.

Lemma set_series_map (i : nat) (f : value -> value) (df : DataFrame) :
  data (set_series i (map f (series i df)) df)
  = map (fun r => set_cell i (f (cell i r)) r) (data df).
Proof.
  unfold set_series, series. simpl.
  induction (data df) as [|r t IH]; simpl; [reflexivity | now rewrite IH].
Qed.

Lemma dropna_ok (subset : list string) (df : DataFrame) :
  forallb (has_column df) subset = true ->
  dropna subset df = Ok (select (complete subset (columns df)) df).
Proof.
  intros H. unfold dropna.
  destruct (find _ subset) as [c|] eqn:F; [|reflexivity].
  apply find_some in F as [Hin Hc].
  rewrite forallb_forall in H. rewrite (H _ Hin) in Hc. discriminate.
Qed.

Lemma dropna_inv (subset : list string) (df out : DataFrame) :
  dropna subset df = Ok out -> out = select (complete subset (columns df)) df.
Proof.
  unfold dropna. destruct (find _ subset); [discriminate | congruence].
Qed.

(** *** [unique] *)

Lemma unique_In (x : value) (s : list value) : In x (unique s) <-> In x s.
Proof.
  induction s as [|y t IH]; simpl; [tauto|].
  rewrite filter_In, IH, negb_true_iff.
  destruct (value_eq_dec y x) as [->|N]; [tauto|].
  split; [tauto|]. intros [H|H]; [tauto|]. right. split; [exact H|].
  destruct (value_eqb y x) eqn:E; [|reflexivity].
  apply value_eqb_eq in E. contradiction.
Qed.

Lemma unique_NoDup (s : list value) : NoDup (unique s).
Proof.
  induction s as [|y t IH]; simpl; constructor.
  - rewrite filter_In, value_eqb_refl. simpl. intros [_ H]. discriminate.
  - now apply NoDup_filter.
Qed.

Lemma dropna_series_In (x : value) (s : list value) :
  In x (dropna_series s) <-> In x s /\ x <> Null.
Proof.
  unfold dropna_series. rewrite filter_In.
  destruct x; simpl; split; intros [H1 H2]; split; auto; congruence.
Qed.

(** *** Sums *)

Lemma sum_zsum (s : list value) : sum s = zsum (map num_of s).
Proof. induction s as [|v t IH]; simpl; [reflexivity | now rewrite <- IH]. Qed.

Lemma zsum_perm (l l' : list Z) : Permutation l l' -> zsum l = zsum l'.
Proof. induction 1; simpl; lia. Qed.

Lemma sum_perm (s s' : list value) : Permutation s s' -> sum s = sum s'.
Proof.
  intros H. rewrite !sum_zsum. apply zsum_perm. now apply Permutation_map.
Qed.

Lemma zsum_map_add {A : Type} (f g : A -> Z) (l : list A) :
  zsum (map (fun a => f a + g a) l) = zsum (map f l) + zsum (map g l).
Proof. induction l as [|a t IH]; simpl; lia. Qed.

Lemma zsum_indicator (x : value) (w : Z) (keys : list value) :
  NoDup keys ->
  zsum (map (fun g => if value_eqb x g then w else 0) keys)
  = if isin keys x then w else 0.
Proof.
  unfold isin. induction 1 as [|g ks Hn Hd IH]; simpl; [reflexivity|].
  rewrite IH. destruct (value_eqb x g) eqn:E; simpl; [|reflexivity].
  apply value_eqb_eq in E. subst g.
  destruct (existsb (value_eqb x) ks) eqn:X; [|lia].
  apply existsb_exists in X as (y & Hy & Exy).
  apply value_eqb_eq in Exy. subst y. contradiction.
Qed.

(** Summing group by group reaches every row whose key is one of the
    (distinct) group keys exactly once. *)
Lemma group_sums_total (k j : nat) (keys : list value) (rows : list row) :
  NoDup keys ->
  zsum (map (fun g => sum (map (cell j) (filter (fun r => value_eqb (cell k r) g) rows))) keys)
  = sum (map (cell j) (filter (fun r => isin keys (cell k r)) rows)).
Proof.
  intros Hd. induction rows as [|r t IH]; simpl.
  - induction keys; simpl; auto. inversion Hd; subst. auto.
  - rewrite (map_ext _ (fun g =>
        (if value_eqb (cell k r) g then num_of (cell j r) else 0)
        + sum (map (cell j) (filter (fun r0 => value_eqb (cell k r0) g) t)))).
    + rewrite zsum_map_add, zsum_indicator, IH by assumption.
      destruct (isin keys (cell k r)); simpl; lia.
    + intros g. destruct (value_eqb (cell k r) g); simpl; lia.
Qed.

Lemma filter_all {A : Type} (p : A -> bool) (l : list A) :
  Forall (fun a => p a = true) l -> filter p l = l.
Proof. induction 1 as [|a t Ha Ht IH]; simpl; [reflexivity|]. now rewrite Ha, IH. Qed.

End FrameFacts.

(** ** Group-by sums *)

Module AggregateFacts.
Import OrderFacts FrameFacts SortFacts.

Lemma group_keys_perm k df :
  Permutation (group_keys k df) (unique (dropna_series (series k df))).
Proof. apply sort_perm. Qed.

Lemma group_keys_NoDup k df : NoDup (group_keys k df).
Proof.
  eapply Permutation_NoDup; [symmetry; apply group_keys_perm | apply unique_NoDup].
Qed.

Lemma group_keys_In k df g :
  In g (group_keys k df) <-> g <> Null /\ In g (series k df).
Proof.
  split.
  - intros H. apply (Permutation_in _ (group_keys_perm k df)) in H.
    apply unique_In, dropna_series_In in H. tauto.
  - intros [Hn Hin]. apply (Permutation_in _ (Permutation_sym (group_keys_perm k df))).
    apply unique_In, dropna_series_In. tauto.
Qed.

Lemma getcols_one df c j : getcol df c = Ok j -> getcols df [c] = Ok [j].
Proof. intros H. simpl. now rewrite H. Qed.

Lemma getcols_two df c1 c2 j1 j2 :
  getcol df c1 = Ok j1 -> getcol df c2 = Ok j2 -> getcols df [c1; c2] = Ok [j1; j2].
Proof. intros H1 H2. simpl. now rewrite H1, H2. Qed.

Lemma groupby_sum_ok key vals df k js :
  getcol df key = Ok k -> getcols df vals = Ok js ->
  groupby_sum key vals df
  = Ok (mkDataFrame (key :: vals)
          (map (fun g => g :: map (fun j => Num (group_sum k j df g)) js)
               (group_keys k df))).
Proof. intros Hk Hj. unfold groupby_sum. now rewrite Hk, Hj. Qed.

Lemma strict_of_sorted_NoDup (l : list value) :
  StronglySorted (fun a b => value_leb a b = true) l -> NoDup l ->
  StronglySorted (fun a b => value_ltb a b = true) l.
Proof.
  induction 1 as [|x t Hs IH Hall]; intros Hd; constructor;
    inversion Hd as [|? ? Hx Ht]; subst.
  - now apply IH.
  - rewrite Forall_forall in *. intros y Hy.
    apply value_ltb_irrefl_step; [now apply Hall|].
    intros ->. contradiction.
Qed.

Lemma value_leb_sorted_strongly (l : list value) :
  Sorted (fun a b => value_leb a b = true) l ->
  StronglySorted (fun a b => value_leb a b = true) l.
Proof.
  apply Sorted_StronglySorted. intros a b c. apply value_leb_trans.
Qed.

(** The rows of the view whose key is present are exactly the rows that
    fall into some group. *)
Lemma in_some_group k df :
  filter (fun r => isin (group_keys k df) (cell k r)) (data df)
  = filter (fun r => notna (cell k r)) (data df).
Proof.
  apply filter_ext_in. intros r Hr.
  destruct (notna (cell k r)) eqn:N.
  - apply existsb_exists. exists (cell k r). split; [|apply value_eqb_refl].
    apply group_keys_In. split.
    + intros E. rewrite E in N. discriminate.
    + unfold series. now apply in_map.
  - destruct (isin (group_keys k df) (cell k r)) eqn:I; [|reflexivity].
    apply existsb_exists in I as (g & Hg & E).
    apply value_eqb_eq in E. subst g.
    apply group_keys_In in Hg as [Hn _].
    destruct (cell k r); simpl in N; congruence.
Qed.

(** The sums of all groups add up to the sum over the rows with a present
    key. *)
Lemma group_sums_cover k j df :
  zsum (map (group_sum k j df) (group_keys k df))
  = sum (map (cell j) (filter (fun r => notna (cell k r)) (data df))).
Proof.
  unfold group_sum. rewrite group_sums_total by apply group_keys_NoDup.
  now rewrite in_some_group.
Qed.

End AggregateFacts.

(** ** Aggregates *)

Section Aggregates.
Import OrderFacts FrameFacts SortFacts AggregateFacts.

Lemma StronglySorted_map {A B : Type} (f : A -> B) (R : B -> B -> Prop) (l : list A) :
  StronglySorted (fun a b => R (f a) (f b)) l -> StronglySorted R (map f l).
Proof.
  induction 1 as [|x t Hs IH Hall]; simpl; constructor; [exact IH|].
  rewrite Forall_forall in *. intros y Hy.
  apply in_map_iff in Hy as (a & <- & Ha). now apply Hall.
Qed.



End Aggregates.

(** ** The filter stage *)

Module FilterFacts.
Import OrderFacts FrameFacts SortFacts AggregateFacts.

Lemma isin_In (chosen : list value) (v : value) : isin chosen v = true <-> In v chosen.
Proof.
  unfold isin. rewrite existsb_exists. split.
  - intros (x & Hx & E). apply value_eqb_eq in E. now subst.
  - intros H. exists v. split; [exact H | apply value_eqb_refl].
Qed.

Lemma select_true (df : DataFrame) : select (fun _ => true) df = df.
Proof.
  destruct df as [cols rows]. unfold select. simpl. f_equal.
  induction rows as [|r t IH]; simpl; congruence.
Qed.

Lemma select_select (p q : row -> bool) (df : DataFrame) :
  select q (select p df) = select (fun r => p r && q r) df.
Proof.
  unfold select. simpl. f_equal.
  induction (data df) as [|r t IH]; simpl; [reflexivity|].
  destruct (p r); simpl; [destruct (q r)|]; now rewrite IH.
Qed.

Lemma filter_isin_ok (c : string) (chosen : list value) (df : DataFrame) (i : nat) :
  getcol df c = Ok i ->
  filter_isin c chosen df = Ok (select (fun r => spec_dimension_ok chosen (cell i r)) df).
Proof.
  intros H. destruct chosen as [|v t]; simpl.
  - now rewrite select_true.
  - now rewrite H.
Qed.

Lemma apply_filters_ok (df : DataFrame) (sel : FilterSelection) (r c s : nat) :
  getcol df "Region" = Ok r ->
  getcol df "Category" = Ok c ->
  getcol df "Sub-Category" = Ok s ->
  apply_filters df sel = Ok (select (spec_keeps r c s sel) df).
Proof.
  intros Hr Hc Hs. unfold apply_filters.
  rewrite (filter_isin_ok _ _ _ _ Hr). cbn [bind].
  rewrite (filter_isin_ok "Category" _ _ c) by exact Hc. cbn [bind].
  rewrite (filter_isin_ok "Sub-Category" _ _ s) by exact Hs.
  rewrite !select_select. unfold select. do 2 f_equal.
  apply filter_ext. intros rec. unfold spec_keeps. now rewrite andb_assoc.
Qed.

Lemma filter_subsequence {A : Type} (p : A -> bool) (l : list A) :
  subsequence (filter p l) l.
Proof.
  induction l as [|a t IH]; simpl; [constructor|].
  destruct (p a); now constructor.
Qed.

Lemma dimension_ok_absent (chosen : list value) (i : nat) (df : DataFrame) :
  chosen <> [] ->
  (forall v, In v chosen -> ~ In v (series i df)) ->
  forall rec, In rec (data df) -> spec_dimension_ok chosen (cell i rec) = false.
Proof.
  intros Hne Habs rec Hrec. destruct chosen as [|v t]; [contradiction|].
  cbn [spec_dimension_ok].
  destruct (isin (v :: t) (cell i rec)) eqn:E; [|reflexivity].
  apply isin_In in E. exfalso. apply (Habs _ E).
  unfold series. now apply in_map.
Qed.

Lemma filter_none {A : Type} (p : A -> bool) (l : list A) :
  (forall a, In a l -> p a = false) -> filter p l = [].
Proof.
  induction l as [|a t IH]; simpl; intros H; [reflexivity|].
  rewrite (H a) by now left. apply IH. intros; apply H; now right.
Qed.

Lemma options_ok (c : string) (df : DataFrame) (i : nat) :
  getcol df c = Ok i -> options c df = Ok (group_keys i df).
Proof. intros H. unfold options. now rewrite H. Qed.

Lemma dimension_ok_full (chosen : list value) (i : nat) (df : DataFrame) (rec : row) :
  same_members chosen (group_keys i df) ->
  In rec (data df) -> cell i rec <> Null ->
  spec_dimension_ok chosen (cell i rec) = true.
Proof.
  intros Hsame Hrec Hn. destruct chosen as [|v t] eqn:E; [reflexivity|].
  rewrite <- E in *. subst chosen. cbn [spec_dimension_ok].
  apply isin_In, Hsame, group_keys_In. split; [exact Hn|].
  unfold series. now apply in_map.
Qed.

Lemma group_keys_nil_iff (i : nat) (df : DataFrame) :
  group_keys i df = [] <-> dimension_live i df = false.
Proof.
  unfold dimension_live. split.
  - intros E. destruct (existsb notna (series i df)) eqn:X; [|reflexivity].
    apply existsb_exists in X as (v & Hv & Nv).
    assert (In v (group_keys i df)).
    { apply group_keys_In. split; [|exact Hv]. intros ->. discriminate. }
    rewrite E in H. contradiction.
  - intros X. destruct (group_keys i df) as [|v t] eqn:E; [reflexivity|].
    assert (Hin : In v (group_keys i df)) by (rewrite E; now left).
    apply group_keys_In in Hin as [Nv Hv].
    assert (existsb notna (series i df) = true).
    { apply existsb_exists. exists v. split; [exact Hv|]. now destruct v. }
    congruence.
Qed.

Lemma default_dimension (i : nat) (df : DataFrame) (rec : row) :
  In rec (data df) ->
  spec_dimension_ok (group_keys i df) (cell i rec) = default_keeps i df rec.
Proof.
  intros Hrec. unfold default_keeps.
  destruct (group_keys i df) as [|v t] eqn:E.
  - apply group_keys_nil_iff in E. now rewrite E.
  - assert (L : dimension_live i df = true).
    { destruct (dimension_live i df) eqn:L; [reflexivity|].
      apply group_keys_nil_iff in L. congruence. }
    rewrite L. cbn [negb orb spec_dimension_ok]. rewrite <- E.
    destruct (notna (cell i rec)) eqn:N.
    + apply isin_In, group_keys_In. split.
      * intros Z. rewrite Z in N. discriminate.
      * unfold series. now apply in_map.
    + destruct (isin (group_keys i df) (cell i rec)) eqn:I; [|reflexivity].
      apply isin_In, group_keys_In in I as [Nn _].
      destruct (cell i rec); simpl in N; congruence.
Qed.

(** With the members of the option list chosen, a dimension asks of a
    record what [default_keeps] says. *)
Lemma dimension_ok_members (chosen : list value) (i : nat) (df : DataFrame)
    (rec : row) :
  same_members chosen (group_keys i df) ->
  In rec (data df) ->
  spec_dimension_ok chosen (cell i rec) = default_keeps i df rec.
Proof.
  intros Hsame Hrec. rewrite <- (default_dimension i df rec Hrec).
  destruct chosen as [|v t] eqn:Ec, (group_keys i df) as [|w u] eqn:Ek;
    cbn [spec_dimension_ok].
  - reflexivity.
  - exfalso. apply (proj2 (Hsame w)). now left.
  - exfalso. apply (proj1 (Hsame v)). now left.
  - destruct (isin (v :: t) (cell i rec)) eqn:A, (isin (w :: u) (cell i rec)) eqn:B;
      try reflexivity.
    + apply isin_In, Hsame, isin_In in A. congruence.
    + apply isin_In, Hsame, isin_In in B. congruence.
Qed.

Lemma filter_fixed_iff {A : Type} (p : A -> bool) (l : list A) :
  filter p l = l <-> Forall (fun a => p a = true) l.
Proof.
  split.
  - induction l as [|a t IH]; [constructor|]. simpl.
    destruct (p a) eqn:E.
    + intros [= H]. constructor; auto.
    + intros H. exfalso.
      assert (L := filter_length_le p t). rewrite H in L. simpl in L. lia.
  - induction 1 as [|a t Ha Ht IH]; simpl; [reflexivity|]. now rewrite Ha, IH.
Qed.

Lemma default_keeps_settled (i : nat) (df : DataFrame) :
  (forall rec, In rec (data df) -> default_keeps i df rec = true)
  <-> dimension_settled i df.
Proof.
  unfold default_keeps, dimension_settled, dimension_live, series.
  destruct (existsb notna (map (cell i) (data df))) eqn:L; cbn [negb orb]; split.
  - intros H. right. intros rec Hrec Z.
    specialize (H rec Hrec). rewrite Z in H. discriminate.
  - intros [H|H] rec Hrec.
    + apply existsb_exists in L as (v & Hv & Nv).
      apply in_map_iff in Hv as (r0 & <- & Hr0).
      rewrite (H r0 Hr0) in Nv. discriminate.
    + specialize (H rec Hrec). now destruct (cell i rec).
  - intros _. left. intros rec Hrec.
    destruct (cell i rec) eqn:Z; [reflexivity | exfalso ..];
      (assert (X : existsb notna (map (cell i) (data df)) = true);
       [apply existsb_exists; exists (cell i rec); split;
        [now apply in_map | now rewrite Z] | congruence]).
  - reflexivity.
Qed.


End FilterFacts.

Section Filters.
Import FrameFacts AggregateFacts FilterFacts.

Lemma dimension_ok_iff (chosen : list value) (v : value) :
  spec_dimension_ok chosen v = true <-> chosen = [] \/ In v chosen.
Proof.
  destruct chosen as [|x t]; cbn [spec_dimension_ok].
  - split; auto.
  - rewrite isin_In. split; [auto | intros [H|H]; [discriminate | exact H]].
Qed.

Lemma keeps_iff (r c s : nat) (sel : FilterSelection) (rec : row) :
  spec_keeps r c s sel rec = true
  <-> (region_filter sel = [] \/ In (cell r rec) (region_filter sel))
      /\ (category_filter sel = [] \/ In (cell c rec) (category_filter sel))
      /\ (sub_category_filter sel = [] \/ In (cell s rec) (sub_category_filter sel)).
Proof.
  unfold spec_keeps. rewrite !andb_true_iff, !dimension_ok_iff. tauto.
Qed.

(** C2. On a frame that has the three dimension columns the filter stage
    never raises, and it keeps, in their order, exactly the records that
    pass every dimension: a dimension is passed when nothing is chosen for
    it or when the record's value is one of the chosen values.  If, for
    some dimension, values are chosen and none of them occurs in the
    dataset, the view is empty. *)
Theorem apply_filters_keeps_exactly (df : DataFrame) (sel : FilterSelection)
    (r c s : nat) :
  getcol df "Region" = Ok r ->
  getcol df "Category" = Ok c ->
  getcol df "Sub-Category" = Ok s ->
  exists fv,
    apply_filters df sel = Ok fv
    /\ columns fv = columns df
    /\ data fv = filter (spec_keeps r c s sel) (data df)
    /\ (forall rec,
          spec_keeps r c s sel rec = true
          <-> (region_filter sel = [] \/ In (cell r rec) (region_filter sel))
              /\ (category_filter sel = [] \/ In (cell c rec) (category_filter sel))
              /\ (sub_category_filter sel = []
                  \/ In (cell s rec) (sub_category_filter sel)))
    /\ (forall rec,
          In rec (data fv)
          <-> In rec (data df)
              /\ (region_filter sel = [] \/ In (cell r rec) (region_filter sel))
              /\ (category_filter sel = [] \/ In (cell c rec) (category_filter sel))
              /\ (sub_category_filter sel = []
                  \/ In (cell s rec) (sub_category_filter sel)))
    /\ ((region_filter sel <> []
         /\ forall v, In v (region_filter sel) -> ~ In v (series r df))
        \/ (category_filter sel <> []
            /\ forall v, In v (category_filter sel) -> ~ In v (series c df))
        \/ (sub_category_filter sel <> []
            /\ forall v, In v (sub_category_filter sel) -> ~ In v (series s df))
        -> data fv = []).
Proof.
  intros Hr Hc Hs. exists (select (spec_keeps r c s sel) df).
  split; [now apply apply_filters_ok|]. split; [reflexivity|].
  split; [reflexivity|]. split; [apply keeps_iff|]. split.
  - intros rec. cbn [select data]. rewrite filter_In, keeps_iff. tauto.
  - intros H. cbn [select data]. apply filter_none. intros rec Hrec.
    unfold spec_keeps.
    destruct H as [[Hne Habs]|[[Hne Habs]|[Hne Habs]]];
      rewrite (dimension_ok_absent _ _ _ Hne Habs rec Hrec);
      rewrite ?andb_false_r; reflexivity.
Qed.

(** On the scenario with Region = East: records 1 and 3 are kept, the West
    record is not. *)
Lemma apply_filters_keeps_exactly_witness :
  apply_filters scenario_dataset east_only
  = Ok (mkDataFrame scenario_columns
          [ [jan 1; Str "A"; Str "East"; Str "Tech"; Str "Phones"; Num 100; Num 10];
            [jan 1; Str "A"; Str "East"; Str "Furniture"; Str "Chairs"; Num 50; Num 5] ])
  /\ exists fv,
       apply_filters scenario_dataset east_only = Ok fv
       /\ In [jan 1; Str "A"; Str "East"; Str "Tech"; Str "Phones"; Num 100; Num 10]
            (data fv)
       /\ ~ In [jan 2; Str "B"; Str "West"; Str "Tech"; Str "Phones"; Num 200; Num (-5)]
              (data fv).
Proof.
  split; [vm_compute; reflexivity|].
  destruct (apply_filters_keeps_exactly scenario_dataset east_only 2 3 4
              eq_refl eq_refl eq_refl) as (fv & A & _ & _ & _ & M & _).
  exists fv. split; [exact A|]. split.
  - apply M. split; [cbn; tauto|]. cbn. auto.
  - intros H. apply M in H as (_ & [E|E] & _); [discriminate E|].
    cbn in E. destruct E as [E|[]]. discriminate E.
Defined.

(** C5, amended. The view has the columns of the dataset and its records
    are a subsequence of the dataset's records.  When the three selections
    are the full option sets, the view is the dataset exactly when, in each
    of the three dimensions, either every record has a value or no record
    has one: the option sets leave missing values out, so a record without
    a value in a dimension that has options is filtered out. *)
Theorem filtered_view_within_dataset (df : DataFrame) (sel : FilterSelection)
    (r c s : nat) :
  getcol df "Region" = Ok r ->
  getcol df "Category" = Ok c ->
  getcol df "Sub-Category" = Ok s ->
  exists fv,
    apply_filters df sel = Ok fv
    /\ columns fv = columns df
    /\ subsequence (data fv) (data df)
    /\ (full_selection df sel ->
        (fv = df
         <-> dimension_settled r df /\ dimension_settled c df
             /\ dimension_settled s df)).
Proof.
  intros Hr Hc Hs. exists (select (spec_keeps r c s sel) df).
  split; [now apply apply_filters_ok|]. split; [reflexivity|]. split.
  - apply filter_subsequence.
  - intros (o_r & o_c & o_s & Or & Sr & Oc & Sc & Os & Ss).
    rewrite (options_ok _ _ _ Hr) in Or. injection Or as <-.
    rewrite (options_ok _ _ _ Hc) in Oc. injection Oc as <-.
    rewrite (options_ok _ _ _ Hs) in Os. injection Os as <-.
    rewrite <- !default_keeps_settled.
    assert (E : select (spec_keeps r c s sel) df = df
                <-> filter (spec_keeps r c s sel) (data df) = data df).
    { destruct df as [cols rows]. unfold select. cbn [columns data].
      split; [intros [= H]; exact H | intros ->; reflexivity]. }
    rewrite E, filter_fixed_iff, Forall_forall.
    assert (K : forall rec, In rec (data df) ->
                  spec_keeps r c s sel rec
                  = default_keeps r df rec && default_keeps c df rec
                    && default_keeps s df rec).
    { intros rec Hrec. unfold spec_keeps.
      now rewrite (dimension_ok_members _ r df rec Sr Hrec),
                  (dimension_ok_members _ c df rec Sc Hrec),
                  (dimension_ok_members _ s df rec Ss Hrec). }
    split.
    + intros H. repeat split; intros rec Hrec;
        specialize (H rec Hrec); rewrite (K rec Hrec) in H;
        apply andb_true_iff in H as [H H3]; apply andb_true_iff in H as [H1 H2];
        assumption.
    + intros (H1 & H2 & H3) rec Hrec.
      now rewrite (K rec Hrec), (H1 rec Hrec), (H2 rec Hrec), (H3 rec Hrec).
Qed.

(** A dataset in which no record has a Region: Region has no option, the
    full selection asks nothing of it, and the view is the dataset. *)
Lemma filtered_view_within_dataset_witness :
  default_selection regionless_dataset = Ok regionless_all_options
  /\ apply_filters regionless_dataset regionless_all_options = Ok regionless_dataset
  /\ exists fv,
       apply_filters regionless_dataset regionless_all_options = Ok fv
       /\ subsequence (data fv) (data regionless_dataset)
       /\ fv = regionless_dataset.
Proof.
  split; [vm_compute; reflexivity|]. split; [vm_compute; reflexivity|].
  destruct (filtered_view_within_dataset regionless_dataset regionless_all_options
              2 3 4 eq_refl eq_refl eq_refl) as (fv & A & _ & S & H).
  exists fv. split; [exact A|]. split; [exact S|]. apply H.
  - exists [], [Str "Tech"], [Str "Phones"].
    repeat split; try reflexivity; auto.
  - split; [|split].
    + left. intros rec [<-|[<-|[]]]; reflexivity.
    + right. intros rec [<-|[<-|[]]]; discriminate.
    + right. intros rec [<-|[<-|[]]]; discriminate.
Defined.

(** C5 as stated fails.  In the dataset loaded from [gaps_raw] the second
    record has no Region; the option sets leave missing values out, so the
    default selection (all options of every dimension) drops that record. *)
Lemma full_selection_drops_records :
  load_data iso_date (env_with gaps_raw) = Ok gaps_dataset
  /\ default_selection gaps_dataset = Ok gaps_all_options
  /\ full_selection gaps_dataset gaps_all_options
  /\ apply_filters gaps_dataset gaps_all_options
     = Ok (mkDataFrame scenario_columns
             [[jan 1; Str "A"; Str "East"; Str "Tech"; Str "Phones"; Num 100; Num 10]])
  /\ ~ (forall df sel fv,
          full_selection df sel -> apply_filters df sel = Ok fv -> fv = df).
Proof.
  assert (F : full_selection gaps_dataset gaps_all_options).
  { exists [Str "East"], [Str "Tech"], [Str "Phones"].
    repeat split; try (vm_compute; reflexivity); auto. }
  repeat split; try (vm_compute; reflexivity); [exact F|].
  intros H. specialize (H _ _ _ F eq_refl). discriminate.
Qed.

End Filters.

(** ** The loader *)

Module LoaderFacts.
Import FrameFacts.

Lemma filter_nil_none {A : Type} (p : A -> bool) (l : list A) :
  filter p l = [] -> forall a, In a l -> p a = false.
Proof.
  induction l as [|x t IH]; simpl; [contradiction|].
  destruct (p x) eqn:E; [discriminate|].
  intros H a [<-|Ha]; auto.
Qed.

Lemma validated_has (cols : list string) (c : string) :
  missing_columns cols = [] -> In c required ->
  existsb (String.eqb c) cols = true.
Proof.
  intros H Hc. apply (filter_nil_none _ _ H) in Hc.
  now apply negb_false_iff in Hc.
Qed.

Lemma validated_getcol (df : DataFrame) (c : string) :
  missing_columns (columns df) = [] -> In c required ->
  exists i, getcol df c = Ok i.
Proof.
  intros H Hc. apply getcol_present. unfold has_column.
  now apply validated_has.
Qed.

Lemma missing_columns_In (cols : list string) (c : string) :
  In c (missing_columns cols) <-> In c required /\ ~ In c cols.
Proof.
  unfold missing_columns. rewrite filter_In, negb_true_iff.
  split; intros [H1 H2]; split; auto.
  - intros Hin. rewrite <- not_true_iff_false in H2. apply H2.
    apply existsb_exists. exists c. split; [exact Hin | apply String.eqb_refl].
  - apply not_true_iff_false. intros E. apply H2.
    apply existsb_exists in E as (x & Hx & E).
    apply String.eqb_eq in E. now subst.
Qed.

Lemma find_none_iff {A : Type} (p : A -> bool) (l : list A) :
  find p l = None <-> Forall (fun a => p a = false) l.
Proof.
  induction l as [|a t IH]; simpl.
  - split; [constructor | reflexivity].
  - destruct (p a) eqn:E.
    + split; [discriminate|]. intros H. inversion H; congruence.
    + rewrite IH. split; [now constructor | intros H; now inversion H].
Qed.

Lemma find_first {A : Type} (p : A -> bool) (l : list A) (a : A) :
  find p l = Some a ->
  exists before after,
    l = (before ++ a :: after)%list
    /\ Forall (fun b => p b = false) before /\ p a = true.
Proof.
  induction l as [|x t IH]; simpl; [discriminate|].
  destruct (p x) eqn:E.
  - intros [= <-]. exists [], t. repeat split; [constructor | exact E].
  - intros H. destruct (IH H) as (before & after & -> & Hb & Ha).
    exists (x :: before), after. repeat split; [now constructor | exact Ha].
Qed.

(** *** What a message contains *)

Lemma append_assoc (a b c : string) : (a ++ b) ++ c = a ++ b ++ c.
Proof. induction a as [|x a IH]; simpl; [reflexivity | now rewrite IH]. Qed.

Lemma append_nil_r (a : string) : a ++ "" = a.
Proof. induction a as [|x a IH]; simpl; [reflexivity | now rewrite IH]. Qed.

Lemma occurs_in_refl (p : string) : occurs_in p p.
Proof. exists "", "". simpl. now rewrite append_nil_r. Qed.

Lemma occurs_in_wrap (p s a b : string) :
  occurs_in p s -> occurs_in p (a ++ s ++ b).
Proof.
  intros (x & y & ->). exists (a ++ x), (y ++ b).
  now rewrite !append_assoc.
Qed.

Lemma occurs_in_join (sep x : string) (l : list string) :
  In x l -> occurs_in x (Py.join sep l).
Proof.
  induction l as [|y t IH]; [contradiction|].
  intros [->|H].
  - destruct t as [|z t]; [apply occurs_in_refl|].
    exists "", (sep ++ Py.join sep (z :: t)). reflexivity.
  - destruct t as [|z t]; [contradiction|].
    change (Py.join sep (y :: z :: t)) with (y ++ sep ++ Py.join sep (z :: t)).
    rewrite <- (append_nil_r (Py.join sep (z :: t))), <- append_assoc.
    apply occurs_in_wrap. now apply IH.
Qed.

Lemma occurs_in_repr_list (c : string) (l : list string) :
  In c l -> occurs_in (Py.repr c) (Py.repr_list l).
Proof.
  intros H. unfold Py.repr_list. apply occurs_in_wrap, occurs_in_join.
  now apply in_map.
Qed.

Lemma repr_char_plain (c : ascii) :
  plain_char c = true ->
  Py.repr_char Py.squote c = String c EmptyString /\ Ascii.eqb c Py.squote = false.
Proof.
  destruct c as [b0 b1 b2 b3 b4 b5 b6 b7].
  destruct b0, b1, b2, b3, b4, b5, b6, b7; intros H;
    first [discriminate H | split; reflexivity].
Qed.

(** A plain label is printed as it is, between single quotes. *)
Lemma repr_plain (c : string) : plain_label c = true -> Py.repr c = quoted c.
Proof.
  intros H.
  assert (B : Py.repr_body Py.squote c = c /\ Py.contains Py.squote c = false).
  { induction c as [|x c IH]; [split; reflexivity|].
    simpl in H. apply andb_true_iff in H as [Hx Hc].
    destruct (repr_char_plain x Hx) as [E1 E2]. destruct (IH Hc) as [E3 E4].
    split.
    - cbn [Py.repr_body]. now rewrite E1, E3.
    - cbn [Py.contains]. now rewrite E2, E4. }
  destruct B as [B1 B2]. unfold Py.repr. rewrite B2. cbn [andb].
  now rewrite B1.
Qed.

Lemma required_plain : forallb plain_label required = true.
Proof. reflexivity. Qed.

Section WithCoercion.
Variable coerce : list value -> value -> option Z.

Lemma to_datetime_map (s : list value) :
  to_datetime coerce s = map (coerced coerce s) s.
Proof. reflexivity. Qed.

Lemma coerced_present (s : list value) (v : value) :
  notna (coerced coerce s v) = true -> exists t, coerced coerce s v = Timestamp t.
Proof.
  unfold coerced. destruct v; try discriminate; eauto;
    destruct (coerce s _); try discriminate; eauto.
Qed.

(** On a validated frame the cleaning statements raise nothing but the
    [ValueError] of a duplicated date label. *)
Lemma clean_validated (df : DataFrame) :
  missing_columns (columns df) = [] ->
  exists d,
    getcol df "Order Date" = Ok d
    /\ dropna ["Sales"; "Profit"] df
       = Ok (select (complete ["Sales"; "Profit"] (columns df)) df)
    /\ (clean coerce df = Raise (ValueError "cannot assemble with duplicate keys")
        \/ clean coerce df
           = Ok (select (complete ["Order Date"] (columns df))
                   (set_series d
                      (to_datetime coerce
                         (series d (select (complete ["Sales"; "Profit"] (columns df)) df)))
                      (select (complete ["Sales"; "Profit"] (columns df)) df)))).
Proof.
  intros V.
  destruct (validated_getcol df "Order Date" V) as [d Hd];
    [unfold required; simpl; tauto|].
  assert (D1 : dropna ["Sales"; "Profit"] df
               = Ok (select (complete ["Sales"; "Profit"] (columns df)) df)).
  { apply dropna_ok. unfold has_column. cbn [forallb].
    rewrite !(validated_has _ _ V) by (unfold required; simpl; tauto).
    reflexivity. }
  exists d. split; [exact Hd|]. split; [exact D1|].
  unfold clean. rewrite D1. cbn [bind].
  change (getcol (select (complete ["Sales"; "Profit"] (columns df)) df) "Order Date")
    with (getcol df "Order Date").
  rewrite Hd. cbn [bind]. cbn [select columns].
  destruct (is_unique "Order Date" (columns df)); cbn [negb]; [right | now left].
  rewrite dropna_ok; [reflexivity|].
  unfold has_column. cbn [forallb set_series select columns].
  rewrite (validated_has _ _ V) by (unfold required; simpl; tauto).
  reflexivity.
Qed.

Lemma prepare_never_file_not_found (raw : DataFrame) (msg : string) :
  prepare coerce raw <> Raise (FileNotFoundError msg).
Proof.
  unfold prepare. cbn [columns].
  destruct (missing_columns (normalize_columns (columns raw))) eqn:M;
    [|discriminate].
  destruct (clean_validated (mkDataFrame (normalize_columns (columns raw)) (data raw)) M)
    as (d & _ & _ & [E|E]); rewrite E; discriminate.
Qed.

End WithCoercion.
End LoaderFacts.

Section LoaderProperties.
Import FrameFacts LoaderFacts.
Variable coerce : list value -> value -> option Z.

(** C1. Whenever [load_data] returns a dataset, it was obtained from the
    first existing file by normalising the labels and then, in this order,
    dropping the records with a missing Sales or Profit, replacing the Order
    Date column by its coerced dates, and dropping the records with a
    missing Order Date; in the result every record has a Sales value, a
    Profit value and an Order Date that is a time stamp. *)
Theorem load_data_no_missing_values (env : Env) (ds : DataFrame) :
  load_data coerce env = Ok ds ->
  exists csv_path raw df1 s p d,
    find (path_exists env) (candidates env) = Some csv_path
    /\ read_csv env csv_path = Some raw
    /\ dropna ["Sales"; "Profit"]
         (mkDataFrame (normalize_columns (columns raw)) (data raw)) = Ok df1
    /\ getcol df1 "Order Date" = Ok d
    /\ dropna ["Order Date"]
         (set_series d (to_datetime coerce (series d df1)) df1) = Ok ds
    /\ getcol ds "Sales" = Ok s
    /\ getcol ds "Profit" = Ok p
    /\ getcol ds "Order Date" = Ok d
    /\ Forall (fun r => cell s r <> Null /\ cell p r <> Null
                        /\ exists t, cell d r = Timestamp t) (data ds).
Proof.
  unfold load_data. intros H.
  destruct (find (path_exists env) (candidates env)) as [csv_path|] eqn:F;
    [|discriminate].
  destruct (read_csv env csv_path) as [raw|] eqn:R; [|discriminate].
  unfold prepare in H. cbn [columns] in H.
  set (df0 := mkDataFrame (normalize_columns (columns raw)) (data raw)) in *.
  destruct (missing_columns (normalize_columns (columns raw))) eqn:M;
    [|discriminate].
  change (normalize_columns (columns raw)) with (columns df0) in M.
  destruct (clean_validated coerce df0 M) as (d & Hd & D1 & [E|E]);
    rewrite E in H; [discriminate|].
  injection H as <-.
  destruct (validated_getcol df0 "Sales" M) as [s Hs]; [unfold required; simpl; tauto|].
  destruct (validated_getcol df0 "Profit" M) as [p Hp]; [unfold required; simpl; tauto|].
  set (df1 := select (complete ["Sales"; "Profit"] (columns df0)) df0) in *.
  exists csv_path, raw, df1, s, p, d.
  split; [reflexivity|]. split; [exact R|]. split; [exact D1|].
  split; [exact Hd|]. split.
  { rewrite dropna_ok; [reflexivity|].
    unfold has_column. cbn [forallb set_series columns df1 select].
    rewrite (validated_has _ _ M) by (unfold required; simpl; tauto).
    reflexivity. }
  split; [exact Hs|]. split; [exact Hp|]. split; [exact Hd|].
  apply Forall_forall. intros r' Hr'.
  cbn [select data] in Hr'. apply filter_In in Hr' as [Hin Hdate].
  rewrite to_datetime_map, set_series_map in Hin.
  apply in_map_iff in Hin as (r & <- & Hr).
  unfold df1 in Hr. cbn [select data] in Hr. apply filter_In in Hr as [_ Hsp].
  apply getcol_get_loc in Hs, Hp, Hd.
  assert (Nds : d <> s).
  { intros ->. pose proof (get_loc_inj _ _ _ _ Hs Hd). discriminate. }
  assert (Ndp : d <> p).
  { intros ->. pose proof (get_loc_inj _ _ _ _ Hp Hd). discriminate. }
  rewrite !cell_set_cell_other by assumption.
  assert (Ns := complete_notna _ _ _ "Sales" s Hsp eq_refl Hs).
  assert (Np := complete_notna _ _ _ "Profit" p Hsp eq_refl Hp).
  assert (Nd := complete_notna _ _ _ "Order Date" d Hdate eq_refl Hd).
  rewrite cell_set_cell_same in *.
  split; [intros Z; rewrite Z in Ns; discriminate|].
  split; [intros Z; rewrite Z in Np; discriminate|].
  now apply coerced_present.
Qed.

(** C3. Once a file has been found and read, [load_data] raises the schema
    error exactly when a required label is absent from the normalised
    labels.  The error's message is "Missing required columns: ", the list
    of the absent required labels, ". Found columns: " and the list of all
    labels found: every absent required label stands between single quotes
    in the first list, and every label found stands in the second, as
    Python prints it (between single quotes when it is plain).  When no
    required label is absent, no such error is raised. *)
Theorem load_data_schema_error (env : Env) (csv_path : Path) (raw : DataFrame) :
  find (path_exists env) (candidates env) = Some csv_path ->
  read_csv env csv_path = Some raw ->
  (missing_columns (normalize_columns (columns raw)) <> [] ->
   load_data coerce env
   = Raise (KeyError
              ("Missing required columns: "
               ++ Py.repr_list (missing_columns (normalize_columns (columns raw)))
               ++ ". Found columns: "
               ++ Py.repr_list (normalize_columns (columns raw)))))
  /\ (missing_columns (normalize_columns (columns raw)) = [] ->
      forall msg, load_data coerce env <> Raise (KeyError msg))
  /\ (forall c, In c (missing_columns (normalize_columns (columns raw)))
                <-> In c required /\ ~ In c (normalize_columns (columns raw)))
  /\ (forall msg,
        load_data coerce env = Raise (KeyError msg) ->
        exists absent found,
          msg = "Missing required columns: " ++ absent ++ ". Found columns: " ++ found
          /\ (forall c, In c (missing_columns (normalize_columns (columns raw))) ->
                        occurs_in (quoted c) absent)
          /\ (forall c, In c (normalize_columns (columns raw)) ->
                        occurs_in (Py.repr c) found)
          /\ (forall c, In c (normalize_columns (columns raw)) ->
                        plain_label c = true -> occurs_in (quoted c) found)).
Proof.
  intros F R.
  assert (NoKey : missing_columns (normalize_columns (columns raw)) = [] ->
                  forall msg, load_data coerce env <> Raise (KeyError msg)).
  { unfold load_data. rewrite F, R. unfold prepare. cbn [columns].
    intros M msg. rewrite M.
    destruct (clean_validated coerce
                (mkDataFrame (normalize_columns (columns raw)) (data raw)) M)
      as (d & _ & _ & [E|E]); rewrite E; discriminate. }
  split; [|split; [exact NoKey|split]].
  - unfold load_data. rewrite F, R. unfold prepare. cbn [columns].
    destruct (missing_columns (normalize_columns (columns raw)));
      [congruence | reflexivity].
  - intros c. apply missing_columns_In.
  - intros msg H.
    destruct (missing_columns (normalize_columns (columns raw))) as [|m ms] eqn:M.
    { now apply NoKey in H. }
    rewrite <- M in *.
    exists (Py.repr_list (missing_columns (normalize_columns (columns raw)))),
           (Py.repr_list (normalize_columns (columns raw))).
    split; [|split; [|split]].
    + unfold load_data in H. rewrite F, R in H. unfold prepare in H.
      cbn [columns] in H. rewrite M in H. rewrite <- M in H.
      unfold schema_message in H. congruence.
    + intros c Hc. rewrite <- repr_plain.
      * now apply occurs_in_repr_list.
      * apply missing_columns_In in Hc as [Hc _].
        pose proof required_plain as P. rewrite forallb_forall in P. now apply P.
    + intros c Hc. now apply occurs_in_repr_list.
    + intros c Hc Hp. rewrite <- repr_plain by exact Hp.
      now apply occurs_in_repr_list.
Qed.

(** C4. [load_data] looks at four places, in this order: the file beside
    the script, the file in [data/] beside the script, the file in the
    working directory, the file in [data/] under the working directory.  It
    reads the first that exists and nothing else; it raises
    [FileNotFoundError] exactly when none exists, with a message that names
    [superstore.csv] and tells to put it beside the app or in a [data/]
    folder. *)
Theorem load_data_candidates (env : Env) :
  candidates env
  = [ (script_dir env ++ ["superstore.csv"])%list;
      (script_dir env ++ ["data"; "superstore.csv"])%list;
      ["superstore.csv"];
      ["data"; "superstore.csv"] ]
  /\ (forall p,
        find (path_exists env) (candidates env) = Some p ->
        (exists before after,
            candidates env = (before ++ p :: after)%list
            /\ Forall (fun q => path_exists env q = false) before
            /\ path_exists env p = true)
        /\ load_data coerce env
           = match read_csv env p with
             | Some raw => prepare coerce raw
             | None => Raise ReadError
             end)
  /\ ((exists q, In q (candidates env) /\ path_exists env q = true) ->
      exists p, find (path_exists env) (candidates env) = Some p)
  /\ (load_data coerce env = Raise (FileNotFoundError not_found_message)
      <-> Forall (fun p => path_exists env p = false) (candidates env))
  /\ (forall msg, load_data coerce env = Raise (FileNotFoundError msg) ->
                  msg = not_found_message)
  /\ not_found_message
     = "Could not find 'superstore.csv'. Place it in the same folder as this app or inside a 'data/' folder in the repo.".
Proof.
  split; [|split; [|split; [|split; [|split]]]].
  - unfold candidates, div. now rewrite <- app_assoc.
  - intros p F. split; [now apply find_first|].
    unfold load_data. now rewrite F.
  - intros (q & Hq & Eq).
    destruct (find (path_exists env) (candidates env)) as [p|] eqn:F; [eauto|].
    rewrite (find_none _ _ F q Hq) in Eq. discriminate.
  - rewrite <- find_none_iff. unfold load_data.
    destruct (find (path_exists env) (candidates env)) as [p|]; [|tauto].
    split; [|discriminate].
    destruct (read_csv env p) as [raw|]; [|discriminate].
    intros H. now apply prepare_never_file_not_found in H.
  - intros msg. unfold load_data.
    destruct (find (path_exists env) (candidates env)) as [p|]; [|congruence].
    destruct (read_csv env p) as [raw|]; [|discriminate].
    intros H. now apply prepare_never_file_not_found in H.
  - reflexivity.
Qed.

End LoaderProperties.

Lemma load_data_no_missing_values_witness :
  exists csv_path raw df1 s p d,
    find (path_exists (env_with scenario_raw)) (candidates (env_with scenario_raw))
    = Some csv_path
    /\ read_csv (env_with scenario_raw) csv_path = Some raw
    /\ dropna ["Sales"; "Profit"]
         (mkDataFrame (normalize_columns (columns raw)) (data raw)) = Ok df1
    /\ getcol df1 "Order Date" = Ok d
    /\ dropna ["Order Date"]
         (set_series d (to_datetime iso_date (series d df1)) df1) = Ok scenario_dataset
    /\ getcol scenario_dataset "Sales" = Ok s
    /\ getcol scenario_dataset "Profit" = Ok p
    /\ getcol scenario_dataset "Order Date" = Ok d
    /\ Forall (fun r => cell s r <> Null /\ cell p r <> Null
                        /\ exists t, cell d r = Timestamp t) (data scenario_dataset).
Proof.
  apply (load_data_no_missing_values iso_date (env_with scenario_raw) scenario_dataset).
  vm_compute. reflexivity.
Defined.

(** A file without a Region column: the message as the script raises it. *)
Lemma load_data_schema_error_witness :
  load_data iso_date (env_with no_region_raw)
  = Raise (KeyError
             "Missing required columns: ['Region']. Found columns: ['Order Date', 'Customer Name', 'Category', 'Sub-Category', 'Sales', 'Profit']")
  /\ exists msg absent found,
       load_data iso_date (env_with no_region_raw) = Raise (KeyError msg)
       /\ msg = "Missing required columns: " ++ absent ++ ". Found columns: " ++ found
       /\ occurs_in "'Region'" absent
       /\ occurs_in "'Sales'" found.
Proof.
  split; [vm_compute; reflexivity|].
  destruct (load_data_schema_error iso_date (env_with no_region_raw)
              ["data"; "superstore.csv"] no_region_raw eq_refl eq_refl)
    as (E & _ & _ & P).
  assert (N : missing_columns (normalize_columns (columns no_region_raw)) <> [])
    by discriminate.
  destruct (P _ (E N)) as (absent & found & Em & Pa & _ & Pf).
  eexists. exists absent, found. split; [exact (E N)|]. split; [exact Em|]. split.
  - apply (Pa "Region"). vm_compute. auto.
  - apply (Pf "Sales"); [vm_compute; tauto | reflexivity].
Defined.

(** ** One run of the page *)

Section Page.
Import FrameFacts AggregateFacts FilterFacts LoaderFacts.





End Page.

(** ** Worked examples *)

Example normalize_name_samples :
  map normalize_name ["Order.Date"; "  Customer..Name "; "Sub.Category"; "Sales"; "."]
  = ["Order Date"; "Customer Name"; "Sub Category"; "Sales"; ""].
Proof. reflexivity. Qed.

Example normalize_columns_unifies_sub_category :
  normalize_columns ["Sub Category"; "Sub.Category"; "Sub-Category"]
  = ["Sub-Category"; "Sub-Category"; "Sub-Category"].
Proof. reflexivity. Qed.

Example repr_picks_the_other_quote :
  Py.repr "it's" = String Py.dquote ("it's" ++ String Py.dquote EmptyString).
Proof. reflexivity. Qed.

Example iso_date_samples :
  map iso_date_of_string ["2021-01-01"; "1970-01-01"; "2021-02-30"; "someday"]
  = [Some (18628 * 86400000000000); Some 0; None; None].
Proof. reflexivity. Qed.

(** The header with "Sub Category" passes validation, and the two records
    that cannot be kept are dropped. *)
Example scenario_loads :
  load_data iso_date (env_with scenario_raw) = Ok scenario_dataset.
Proof. vm_compute. reflexivity. Qed.

Example scenario_no_file :
  load_data iso_date no_file_env = Raise (FileNotFoundError not_found_message).
Proof. reflexivity. Qed.

Example scenario_missing_region :
  load_data iso_date (env_with no_region_raw)
  = Raise (KeyError
             "Missing required columns: ['Region']. Found columns: ['Order Date', 'Customer Name', 'Category', 'Sub-Category', 'Sales', 'Profit']").
Proof. vm_compute. reflexivity. Qed.

(** Two labels that normalise to "Order Date": pandas hands [to_datetime] a
    frame and it refuses. *)
Example scenario_duplicated_date_label :
  load_data iso_date
    (env_with (mkDataFrame
                 ["Order.Date"; "Order Date"; "Customer Name"; "Region"; "Category";
                  "Sub-Category"; "Sales"; "Profit"] []))
  = Raise (ValueError "cannot assemble with duplicate keys").
Proof. vm_compute. reflexivity. Qed.

Example scenario_east :
  render scenario_dataset east_only
  = Ok (Rendered
          (mkReport 150 15
             (mkDataFrame ["Customer Name"; "Sales"] [[Str "A"; Num 150]])
             (mkDataFrame ["Category"; "Sales"; "Profit"]
                [[Str "Tech"; Num 100; Num 10]; [Str "Furniture"; Num 50; Num 5]])
             (mkDataFrame ["Order Date"; "Sales"] [[jan 1; Num 150]]))).
Proof. vm_compute. reflexivity. Qed.

Example scenario_nonexistent_region :
  render scenario_dataset (mkSelection [Str "Nonexistent"] [] [])
  = Ok (Warned empty_warning).
Proof. vm_compute. reflexivity. Qed.

Example scenario_default_selection_keeps_all :
  (sel <- default_selection scenario_dataset ;; apply_filters scenario_dataset sel)
  = Ok scenario_dataset.
Proof. vm_compute. reflexivity. Qed.

(** * Further properties *)

(** ** Labels after normalisation *)

Section Labels.
Import NameFacts.

Lemma rstrip_fixed_iff (s : string) : Py.rstrip s = s <-> ends_clean s = true.
Proof.
  induction s as [|c r IH]; [simpl; tauto|].
  simpl. destruct (Py.rstrip r) as [|x t] eqn:E; destruct r as [|c' r'] eqn:R;
    cbv iota.
  - destruct (Py.is_space c); simpl; split; congruence.
  - split; intros H.
    + destruct (Py.is_space c); congruence.
    + apply IH in H. congruence.
  - simpl in E. discriminate.
  - rewrite <- IH. split; congruence.
Qed.

Lemma canonical_iff_normal (s : string) : canonical s <-> normal s.
Proof. unfold canonical, normal. rewrite rstrip_fixed_iff. tauto. Qed.

(** X1. Every label that [load_data] works with is canonical: it has no
    dot, its white space consists of single plain spaces, it neither starts
    nor ends with white space; and none is the unhyphenated
    "Sub Category". *)
Theorem normalize_columns_canonical (cols : list string) :
  Forall (fun c => canonical c /\ c <> "Sub Category") (normalize_columns cols).
Proof.
  apply Forall_forall. intros c Hc. unfold normalize_columns, rename in Hc.
  rewrite map_map in Hc. apply in_map_iff in Hc as (x & <- & _).
  destruct (String.eqb (normalize_name x) "Sub Category") eqn:E.
  - split; [repeat split | discriminate].
  - split; [apply canonical_iff_normal, normalize_name_normal
           | now apply String.eqb_neq].
Qed.

(** X2. Normalising leaves a label unchanged exactly when the label is
    canonical already. *)
Theorem normalize_name_fixed_iff_canonical (s : string) :
  normalize_name s = s <-> canonical s.
Proof.
  rewrite canonical_iff_normal. split.
  - intros <-. apply normalize_name_normal.
  - apply normal_fix.
Qed.

Example canonical_samples :
  canonical "Order Date" /\ canonical "Sub-Category"
  /\ ~ canonical "Sales " /\ ~ canonical " Sales" /\ ~ canonical "Order  Date"
  /\ ~ canonical "Order.Date".
Proof.
  repeat split; try reflexivity; intros (A & B & C & D); discriminate.
Qed.

End Labels.

(** ** The loader, record by record *)

Module LoadShape.
Import FrameFacts LoaderFacts.

Lemma complete_unused (c : string) (cols : list string) (r : row) :
  existsb (String.eqb c) cols = false -> complete [c] cols r = true.
Proof.
  revert r. induction cols as [|x t IH]; intros r; simpl; [reflexivity|].
  intros H. apply orb_false_iff in H as [Hx Ht].
  rewrite String.eqb_sym, Hx. simpl. now apply IH.
Qed.

Lemma filter_nil_absent (c : string) (cols : list string) :
  filter (String.eqb c) cols = [] -> existsb (String.eqb c) cols = false.
Proof.
  induction cols as [|x t IH]; simpl; [reflexivity|].
  destruct (String.eqb c x); [discriminate | exact IH].
Qed.

(** With a label that occurs once, [dropna] on that label looks at one
    cell. *)
Lemma complete_single (c : string) (cols : list string) (d : nat) (r : row) :
  is_unique c cols = true -> get_loc c cols = Some d ->
  complete [c] cols r = notna (cell d r).
Proof.
  unfold is_unique. revert d r.
  induction cols as [|x t IH]; intros d r; simpl; [discriminate|].
  rewrite (String.eqb_sym x c). destruct (String.eqb c x) eqn:E; simpl.
  - intros U [= <-]. rewrite complete_unused, andb_true_r; [reflexivity|].
    apply filter_nil_absent. apply Nat.eqb_eq in U.
    destruct (filter (String.eqb c) t); [reflexivity | discriminate].
  - intros U G. destruct (get_loc c t) as [j|] eqn:Gj; [|discriminate].
    injection G as <-. rewrite cell_tl. now apply IH.
Qed.

Lemma filter_map_comm {A B : Type} (f : A -> B) (p : B -> bool) (l : list A) :
  filter p (map f l) = map f (filter (fun a => p (f a)) l).
Proof.
  induction l as [|a t IH]; simpl; [reflexivity|].
  destruct (p (f a)); simpl; now rewrite IH.
Qed.

Section WithCoercion.
Variable coerce : list value -> value -> option Z.

(** What the cleaning statements return on a validated frame. *)
Lemma clean_outcome (df : DataFrame) (d : nat) :
  missing_columns (columns df) = [] ->
  get_loc "Order Date" (columns df) = Some d ->
  clean coerce df
  = if is_unique "Order Date" (columns df)
    then Ok (mkDataFrame (columns df)
               (map (date_fixed coerce d
                       (filter (complete ["Sales"; "Profit"] (columns df)) (data df)))
                  (filter (date_readable coerce d
                             (filter (complete ["Sales"; "Profit"] (columns df)) (data df)))
                     (filter (complete ["Sales"; "Profit"] (columns df)) (data df)))))
    else Raise (ValueError "cannot assemble with duplicate keys").
Proof.
  intros V Hd.
  assert (D1 : dropna ["Sales"; "Profit"] df
               = Ok (select (complete ["Sales"; "Profit"] (columns df)) df)).
  { apply dropna_ok. unfold has_column. cbn [forallb].
    rewrite !(validated_has _ _ V) by (unfold required; simpl; tauto).
    reflexivity. }
  unfold clean. rewrite D1. cbn [bind]. unfold getcol. cbn [select columns].
  rewrite Hd. cbn [bind].
  destruct (is_unique "Order Date" (columns df)) eqn:U; cbn [negb]; [|reflexivity].
  rewrite dropna_ok.
  2:{ unfold has_column. cbn [forallb set_series select columns].
      rewrite (validated_has _ _ V) by (unfold required; simpl; tauto).
      reflexivity. }
  f_equal. unfold select at 1. cbn [set_series columns select]. f_equal.
  unfold to_datetime.
  rewrite (set_series_map d (coerced coerce
             (series d (select (complete ["Sales"; "Profit"] (columns df)) df)))).
  cbn [select data]. rewrite filter_map_comm.
  unfold series. cbn [data]. apply f_equal2; [reflexivity|].
  apply filter_ext. intros r.
  rewrite (complete_single _ _ d _ U Hd), cell_set_cell_same. reflexivity.
Qed.

(** The whole of [load_data] once a file has been read. *)
Lemma load_data_found (env : Env) (p : Path) (raw : DataFrame) :
  find (path_exists env) (candidates env) = Some p ->
  read_csv env p = Some raw ->
  missing_columns (normalize_columns (columns raw)) = [] ->
  exists d,
    get_loc "Order Date" (normalize_columns (columns raw)) = Some d
    /\ load_data coerce env
       = if is_unique "Order Date" (normalize_columns (columns raw))
         then Ok (mkDataFrame (normalize_columns (columns raw))
                    (map (date_fixed coerce d
                            (filter (complete ["Sales"; "Profit"]
                                       (normalize_columns (columns raw))) (data raw)))
                       (filter (date_readable coerce d
                                  (filter (complete ["Sales"; "Profit"]
                                             (normalize_columns (columns raw))) (data raw)))
                          (filter (complete ["Sales"; "Profit"]
                                     (normalize_columns (columns raw))) (data raw)))))
         else Raise (ValueError "cannot assemble with duplicate keys").
Proof.
  intros F R M.
  assert (P : existsb (String.eqb "Order Date") (normalize_columns (columns raw)) = true)
    by (apply validated_has; [exact M | unfold required; simpl; tauto]).
  apply get_loc_present in P as [d Hd].
  exists d. split; [exact Hd|].
  unfold load_data. rewrite F, R. unfold prepare. cbn [columns]. rewrite M.
  now rewrite (clean_outcome (mkDataFrame (normalize_columns (columns raw)) (data raw)) d M Hd).
Qed.

(** Everything that is known of a dataset that [load_data] returned. *)
Lemma load_data_shape (env : Env) (ds : DataFrame) :
  load_data coerce env = Ok ds ->
  exists p raw d,
    find (path_exists env) (candidates env) = Some p
    /\ read_csv env p = Some raw
    /\ missing_columns (normalize_columns (columns raw)) = []
    /\ is_unique "Order Date" (normalize_columns (columns raw)) = true
    /\ get_loc "Order Date" (normalize_columns (columns raw)) = Some d
    /\ ds = mkDataFrame (normalize_columns (columns raw))
              (map (date_fixed coerce d
                      (filter (complete ["Sales"; "Profit"]
                                 (normalize_columns (columns raw))) (data raw)))
                 (filter (date_readable coerce d
                            (filter (complete ["Sales"; "Profit"]
                                       (normalize_columns (columns raw))) (data raw)))
                    (filter (complete ["Sales"; "Profit"]
                               (normalize_columns (columns raw))) (data raw)))).
Proof.
  intros H.
  destruct (find (path_exists env) (candidates env)) as [p|] eqn:F;
    [|unfold load_data in H; rewrite F in H; discriminate].
  destruct (read_csv env p) as [raw|] eqn:R;
    [|unfold load_data in H; rewrite F, R in H; discriminate].
  destruct (missing_columns (normalize_columns (columns raw))) as [|m ms] eqn:M;
    [|unfold load_data, prepare in H; cbn [columns] in H;
      rewrite F, R, M in H; discriminate].
  destruct (load_data_found env p raw F R M) as (d & Hd & E).
  rewrite E in H.
  destruct (is_unique "Order Date" (normalize_columns (columns raw))) eqn:U;
    [|discriminate].
  injection H as <-. exists p, raw, d. rewrite M. repeat split; auto.
Qed.

End WithCoercion.
End LoadShape.

Section LoadedDataset.
Import FrameFacts LoaderFacts LoadShape FilterFacts.
Variable coerce : list value -> value -> option Z.

(** X4. The labels of a loaded dataset are the normalised labels of the
    file; all seven required labels are among them and "Order Date" occurs
    exactly once. *)
Theorem load_data_columns (env : Env) (ds : DataFrame) :
  load_data coerce env = Ok ds ->
  exists p raw,
    find (path_exists env) (candidates env) = Some p
    /\ read_csv env p = Some raw
    /\ columns ds = normalize_columns (columns raw)
    /\ missing_columns (columns ds) = []
    /\ Forall (fun c => In c (columns ds)) required
    /\ List.length (filter (String.eqb "Order Date") (columns ds)) = 1%nat.
Proof.
  intros H. apply load_data_shape in H as (p & raw & d & F & R & M & U & _ & ->).
  exists p, raw. cbn [columns]. repeat split; auto.
  - apply Forall_forall. intros c Hc.
    pose proof (validated_has _ c M Hc) as E.
    apply existsb_exists in E as (x & Hx & E).
    apply String.eqb_eq in E. now subst.
  - now apply Nat.eqb_eq.
Qed.

(** X5. A record of the file is in the loaded dataset exactly when its Sales
    and Profit cells are present and its Order Date can be read (the dates
    being read over the records that have Sales and Profit); the records
    keep their order and differ from the file's only in the Order Date
    cell, which holds the date read. *)
Theorem load_data_rows (env : Env) (ds : DataFrame) :
  load_data coerce env = Ok ds ->
  exists p raw d,
    find (path_exists env) (candidates env) = Some p
    /\ read_csv env p = Some raw
    /\ getcol ds "Order Date" = Ok d
    /\ data ds
       = map (date_fixed coerce d
                (filter (complete ["Sales"; "Profit"] (columns ds)) (data raw)))
           (filter (date_readable coerce d
                      (filter (complete ["Sales"; "Profit"] (columns ds)) (data raw)))
              (filter (complete ["Sales"; "Profit"] (columns ds)) (data raw))).
Proof.
  intros H. apply load_data_shape in H as (p & raw & d & F & R & M & U & Hd & ->).
  exists p, raw, d. cbn [columns data]. repeat split; auto.
  now apply getcol_get_loc.
Qed.

Lemma filter_twice_subsequence {A : Type} (p q : A -> bool) (l : list A) :
  subsequence (filter q (filter p l)) l.
Proof.
  induction l as [|a t IH]; simpl; [constructor|].
  destruct (p a); simpl; [destruct (q a)|]; now constructor.
Qed.

(** X6. Loading never adds or reorders records and touches no column but
    Order Date: the dataset's records correspond, in order, to a
    subsequence of the file's records, and every other column of the
    dataset is that column of the file restricted to those records. *)
Theorem load_data_passthrough (env : Env) (ds : DataFrame) :
  load_data coerce env = Ok ds ->
  exists p raw d kept,
    find (path_exists env) (candidates env) = Some p
    /\ read_csv env p = Some raw
    /\ getcol ds "Order Date" = Ok d
    /\ subsequence kept (data raw)
    /\ List.length (data ds) = List.length kept
    /\ (List.length (data ds) <= List.length (data raw))%nat
    /\ forall j, j <> d -> series j ds = map (cell j) kept.
Proof.
  intros H. apply load_data_shape in H as (p & raw & d & F & R & M & U & Hd & ->).
  set (cols := normalize_columns (columns raw)) in *.
  set (sp := filter (complete ["Sales"; "Profit"] cols) (data raw)).
  exists p, raw, d, (filter (date_readable coerce d sp) sp).
  cbn [data]. split; [exact F|]. split; [exact R|].
  split; [now apply getcol_get_loc|].
  split; [apply filter_twice_subsequence|].
  split; [apply length_map|]. split.
  - rewrite length_map.
    eapply Nat.le_trans; [apply filter_length_le|]. apply filter_length_le.
  - intros j Hj. unfold series. cbn [data]. rewrite map_map.
    apply map_ext. intros r. unfold date_fixed.
    apply cell_set_cell_other. congruence.
Qed.

End LoadedDataset.

Lemma load_data_columns_witness :
  exists p raw,
    find (path_exists (env_with scenario_raw)) (candidates (env_with scenario_raw)) = Some p
    /\ read_csv (env_with scenario_raw) p = Some raw
    /\ columns scenario_dataset = normalize_columns (columns raw)
    /\ missing_columns (columns scenario_dataset) = []
    /\ Forall (fun c => In c (columns scenario_dataset)) required
    /\ List.length (filter (String.eqb "Order Date") (columns scenario_dataset)) = 1%nat.
Proof.
  apply (load_data_columns iso_date (env_with scenario_raw) scenario_dataset).
  vm_compute. reflexivity.
Defined.

Lemma load_data_rows_witness :
  exists p raw d,
    find (path_exists (env_with scenario_raw)) (candidates (env_with scenario_raw)) = Some p
    /\ read_csv (env_with scenario_raw) p = Some raw
    /\ getcol scenario_dataset "Order Date" = Ok d
    /\ data scenario_dataset
       = map (date_fixed iso_date d
                (filter (complete ["Sales"; "Profit"] (columns scenario_dataset)) (data raw)))
           (filter (date_readable iso_date d
                      (filter (complete ["Sales"; "Profit"] (columns scenario_dataset))
                         (data raw)))
              (filter (complete ["Sales"; "Profit"] (columns scenario_dataset)) (data raw))).
Proof.
  apply (load_data_rows iso_date (env_with scenario_raw) scenario_dataset).
  vm_compute. reflexivity.
Defined.

Lemma load_data_passthrough_witness :
  exists p raw d kept,
    find (path_exists (env_with scenario_raw)) (candidates (env_with scenario_raw)) = Some p
    /\ read_csv (env_with scenario_raw) p = Some raw
    /\ getcol scenario_dataset "Order Date" = Ok d
    /\ subsequence kept (data raw)
    /\ List.length (data scenario_dataset) = List.length kept
    /\ (List.length (data scenario_dataset) <= List.length (data raw))%nat
    /\ forall j, j <> d -> series j scenario_dataset = map (cell j) kept.
Proof.
  apply (load_data_passthrough iso_date (env_with scenario_raw) scenario_dataset).
  vm_compute. reflexivity.
Defined.

(** ** Option lists and the filters *)

Section OptionsAndFilters.
Import OrderFacts FrameFacts SortFacts AggregateFacts FilterFacts.

Lemma StronglySorted_weaken {A : Type} (R R' : A -> A -> Prop) (l : list A) :
  (forall a b, R a b -> R' a b) -> StronglySorted R l -> StronglySorted R' l.
Proof.
  intros W. induction 1 as [|x t Hs IH Hall]; constructor; [exact IH|].
  eapply Forall_impl; [|exact Hall]. intros a. apply W.
Qed.

Lemma all_text (l : list value) :
  Forall (fun v => exists s, v = Str s) l -> exists names, l = map Str names.
Proof.
  induction 1 as [|v t [s ->] Ht [names ->]].
  - now exists [].
  - now exists (s :: names).
Qed.

Lemma text_lt (a b : string) :
  value_ltb (Str a) (Str b) = true -> String.ltb a b = true.
Proof.
  unfold value_ltb, String.ltb, String.leb. cbn [value_leb]. unfold String.leb.
  intros H. apply andb_true_iff in H as [L N]. apply negb_true_iff in N.
  destruct (String.compare a b) eqn:C; try reflexivity; [|discriminate L].
  apply String.compare_eq_iff in C. subst b.
  now rewrite value_eqb_refl in N.
Qed.

(** X7. For a dimension whose label occurs once and whose cells are text or
    missing, the option list holds exactly the texts that occur in the
    column, each once, in strictly ascending order of their characters;
    missing cells give no option. *)
Theorem options_sorted_distinct (c : string) (df : DataFrame) (i : nat)
    (cells : list (option string)) :
  getcol df c = Ok i ->
  is_unique c (columns df) = true ->
  text_column i df cells ->
  exists names,
    options c df = Ok (map Str names)
    /\ NoDup names
    /\ (forall s, In s names <-> In (Some s) cells)
    /\ StronglySorted (fun a b => String.ltb a b = true) names.
Proof.
  intros Hi _ Ht. rewrite (options_ok _ _ _ Hi).
  assert (T : forall v, In v (series i df) -> v <> Null -> exists s, v = Str s).
  { intros v Hv Nv. rewrite Ht in Hv. apply in_map_iff in Hv as (o & <- & _).
    destruct o as [s|]; [now exists s | now exfalso]. }
  destruct (all_text (group_keys i df)) as [names E].
  { apply Forall_forall. intros v Hv. apply group_keys_In in Hv as [Nv Hv]. auto. }
  exists names. rewrite E. split; [reflexivity|].
  assert (S : StronglySorted (fun a b => value_ltb a b = true) (map Str names)).
  { rewrite <- E. apply strict_of_sorted_NoDup; [|apply group_keys_NoDup].
    apply value_leb_sorted_strongly, sort_sorted.
    intros a b. apply value_leb_total. }
  split; [|split].
  - pose proof (group_keys_NoDup i df) as N. rewrite E in N.
    now apply NoDup_map_inv in N.
  - intros s. split.
    + intros H. assert (K : In (Str s) (group_keys i df))
        by (rewrite E; now apply in_map).
      apply group_keys_In in K as [_ K]. rewrite Ht in K.
      apply in_map_iff in K as ([s'|] & Es & K); [|discriminate Es].
      injection Es as ->. exact K.
    + intros H. assert (K : In (Str s) (group_keys i df)).
      { apply group_keys_In. split; [discriminate|]. rewrite Ht.
        apply in_map_iff. exists (Some s). auto. }
      rewrite E in K. apply in_map_iff in K as (s' & [= ->] & K). exact K.
  - apply (StronglySorted_weaken
             (fun a b => value_ltb (Str a) (Str b) = true)); [apply text_lt|].
    clear -S. induction names as [|x t IH]; [constructor|].
    cbn [map] in S. inversion S as [|? ? Hs Hall]; subst.
    constructor; [now apply IH|].
    rewrite Forall_forall in *. intros y Hy. apply Hall. now apply in_map.
Qed.

(** The Region column of [gaps_dataset] holds East and an empty cell; that
    of the scenario East, West, East. *)
Lemma options_sorted_distinct_witness :
  options "Region" gaps_dataset = Ok [Str "East"]
  /\ options "Region" scenario_dataset = Ok [Str "East"; Str "West"]
  /\ exists names,
       options "Region" scenario_dataset = Ok (map Str names)
       /\ In "West" names
       /\ StronglySorted (fun a b => String.ltb a b = true) names.
Proof.
  split; [vm_compute; reflexivity|]. split; [vm_compute; reflexivity|].
  destruct (options_sorted_distinct "Region" scenario_dataset 2
              [Some "East"; Some "West"; Some "East"] eq_refl eq_refl eq_refl)
    as (names & E & _ & M & S).
  exists names. split; [exact E|]. split; [|exact S].
  apply M. cbn. tauto.
Defined.

(** X8. Take a dataset in which the labels Region, Category and
    Sub-Category occur once and their cells are text or missing.  With the
    default selection (every option of every dimension) the view holds
    exactly the records that have a value in each dimension in which some
    record has one; records with an empty Region, Category or Sub-Category
    cell are left out unless the whole column is empty. *)
Theorem default_selection_view (df : DataFrame) (r c s : nat)
    (regions categories subcategories : list (option string)) :
  getcol df "Region" = Ok r ->
  getcol df "Category" = Ok c ->
  getcol df "Sub-Category" = Ok s ->
  is_unique "Region" (columns df) = true ->
  is_unique "Category" (columns df) = true ->
  is_unique "Sub-Category" (columns df) = true ->
  text_column r df regions ->
  text_column c df categories ->
  text_column s df subcategories ->
  exists sel fv,
    default_selection df = Ok sel
    /\ apply_filters df sel = Ok fv
    /\ columns fv = columns df
    /\ data fv
       = filter (fun rec => default_keeps r df rec && default_keeps c df rec
                            && default_keeps s df rec) (data df).
Proof.
  intros Hr Hc Hs _ _ _ _ _ _.
  exists (mkSelection (group_keys r df) (group_keys c df) (group_keys s df)).
  eexists. unfold default_selection.
  rewrite (options_ok _ _ _ Hr), (options_ok _ _ _ Hc), (options_ok _ _ _ Hs).
  cbn [bind]. split; [reflexivity|].
  rewrite (apply_filters_ok _ _ _ _ _ Hr Hc Hs).
  split; [reflexivity|]. split; [reflexivity|].
  cbn [select data]. apply filter_ext_in. intros rec Hrec.
  unfold spec_keeps. cbn [region_filter category_filter sub_category_filter].
  now rewrite !default_dimension by assumption.
Qed.

(** [gaps_dataset]: the record without Region and Category is left out.
    [regionless_dataset]: no record has a Region and all are kept. *)
Lemma default_selection_view_witness :
  (sel <- default_selection gaps_dataset ;; apply_filters gaps_dataset sel)
  = Ok (mkDataFrame scenario_columns
          [[jan 1; Str "A"; Str "East"; Str "Tech"; Str "Phones"; Num 100; Num 10]])
  /\ (sel <- default_selection regionless_dataset ;;
      apply_filters regionless_dataset sel)
     = Ok regionless_dataset
  /\ exists sel fv,
       default_selection gaps_dataset = Ok sel
       /\ apply_filters gaps_dataset sel = Ok fv
       /\ data fv
          = filter (fun rec => default_keeps 2 gaps_dataset rec
                               && default_keeps 3 gaps_dataset rec
                               && default_keeps 4 gaps_dataset rec) (data gaps_dataset).
Proof.
  split; [vm_compute; reflexivity|]. split; [vm_compute; reflexivity|].
  destruct (default_selection_view gaps_dataset 2 3 4
              [Some "East"; None] [Some "Tech"; None] [Some "Phones"; Some "Phones"]
              eq_refl eq_refl eq_refl eq_refl eq_refl eq_refl eq_refl eq_refl eq_refl)
    as (sel & fv & D & A & _ & F).
  exists sel, fv. auto.
Defined.

Lemma filter_idem {A : Type} (p : A -> bool) (l : list A) :
  filter p (filter p l) = filter p l.
Proof.
  induction l as [|a t IH]; simpl; [reflexivity|].
  destruct (p a) eqn:E; simpl; [rewrite E|]; now rewrite IH.
Qed.

(** X9. Filtering a view again with the same selection changes nothing. *)
Theorem apply_filters_idempotent (df : DataFrame) (sel : FilterSelection)
    (r c s : nat) :
  getcol df "Region" = Ok r ->
  getcol df "Category" = Ok c ->
  getcol df "Sub-Category" = Ok s ->
  exists fv, apply_filters df sel = Ok fv /\ apply_filters fv sel = Ok fv.
Proof.
  intros Hr Hc Hs. exists (select (spec_keeps r c s sel) df).
  split; [now apply apply_filters_ok|].
  rewrite (apply_filters_ok _ sel r c s) by assumption.
  unfold select. cbn [columns data]. now rewrite filter_idem.
Qed.

Lemma apply_filters_idempotent_witness :
  exists fv,
    apply_filters scenario_dataset east_only = Ok fv
    /\ apply_filters fv east_only = Ok fv.
Proof.
  apply (apply_filters_idempotent scenario_dataset east_only 2 3 4); reflexivity.
Defined.

(** X10. Two of the script's filter steps give the same frame in either
    order, so the order Region, Category, Sub-Category is immaterial. *)
Theorem filter_isin_commute (df : DataFrame) (c1 c2 : string)
    (chosen1 chosen2 : list value) (i1 i2 : nat) :
  getcol df c1 = Ok i1 ->
  getcol df c2 = Ok i2 ->
  (f <- filter_isin c1 chosen1 df ;; filter_isin c2 chosen2 f)
  = (f <- filter_isin c2 chosen2 df ;; filter_isin c1 chosen1 f).
Proof.
  intros H1 H2.
  rewrite (filter_isin_ok _ _ _ _ H1), (filter_isin_ok _ _ _ _ H2). cbn [bind].
  rewrite (filter_isin_ok c2 _ _ i2) by exact H2.
  rewrite (filter_isin_ok c1 _ _ i1) by exact H1.
  rewrite !select_select. unfold select. do 2 f_equal.
  apply filter_ext. intros rec. apply andb_comm.
Qed.

Lemma filter_isin_commute_witness :
  (f <- filter_isin "Region" [Str "East"] scenario_dataset ;;
   filter_isin "Category" [Str "Tech"] f)
  = (f <- filter_isin "Category" [Str "Tech"] scenario_dataset ;;
     filter_isin "Region" [Str "East"] f).
Proof.
  apply (filter_isin_commute scenario_dataset "Region" "Category"
           [Str "East"] [Str "Tech"] 2 3); reflexivity.
Defined.

End OptionsAndFilters.

(** ** More on the aggregates *)

Module AggregateShape.
Import OrderFacts FrameFacts SortFacts AggregateFacts.

(** Rows ordered by descending Sales, the Sales cell being a number in every
    row. *)
Lemma sort_by_sales_desc (rows : list row) :
  Forall (fun r => cell 1 r = Num (num_of (cell 1 r))) rows ->
  Permutation (Py.sort (fun r1 r2 => value_geb_nalast (cell 1 r1) (cell 1 r2)) rows) rows
  /\ StronglySorted (fun a b => num_of (cell 1 a) >= num_of (cell 1 b))
       (Py.sort (fun r1 r2 => value_geb_nalast (cell 1 r1) (cell 1 r2)) rows).
Proof.
  intros Hnum.
  set (le := fun r1 r2 : row => value_geb_nalast (cell 1 r1) (cell 1 r2)).
  assert (P : Permutation (Py.sort le rows) rows) by apply sort_perm.
  split; [exact P|].
  apply Sorted_StronglySorted; [intros a b c; lia|].
  apply (Sorted_weaken (fun r => cell 1 r = Num (num_of (cell 1 r)))
           (fun a b => le a b = true)).
  - intros a b Ha Hb. unfold le. rewrite Ha, Hb. cbn. rewrite Z.leb_le. lia.
  - rewrite Forall_forall in *. intros r Hr. apply Hnum.
    eapply Permutation_in; eauto.
  - apply sort_sorted. intros a b. apply value_geb_nalast_total.
Qed.

Lemma StronglySorted_app_inv {A : Type} (R : A -> A -> Prop) (l1 l2 : list A) :
  StronglySorted R (l1 ++ l2) ->
  forall a b, In a l1 -> In b l2 -> R a b.
Proof.
  induction l1 as [|x t IH]; simpl; intros H a b Ha Hb; [contradiction|].
  inversion H as [|? ? Hs Hall]; subst. destruct Ha as [<-|Ha].
  - rewrite Forall_forall in Hall. apply Hall, in_or_app. now right.
  - now apply IH.
Qed.

Lemma StronglySorted_map_on {A B : Type} (f : A -> B) (R : B -> B -> Prop)
    (l : list A) :
  StronglySorted (fun a b => R (f a) (f b)) l -> StronglySorted R (map f l).
Proof.
  induction 1 as [|x t Hs IH Hall]; simpl; constructor; [exact IH|].
  rewrite Forall_forall in *. intros y Hy.
  apply in_map_iff in Hy as (a & <- & Ha). now apply Hall.
Qed.

Lemma map_fixed {A : Type} (f : A -> A) (l : list A) :
  Forall (fun a => f a = a) l -> map f l = l.
Proof. induction 1 as [|a t Ha Ht IH]; simpl; congruence. Qed.

(** The customers in descending order of their Sales, of which
    [top_customers] shows the first five. *)
Lemma customers_ranked (fv : DataFrame) (k j : nat) :
  getcol fv "Customer Name" = Ok k ->
  getcol fv "Sales" = Ok j ->
  exists ranked,
    Permutation ranked (spec_customer_totals k j fv)
    /\ StronglySorted (fun a b => snd a >= snd b) ranked
    /\ top_customers fv
       = Ok (mkDataFrame ["Customer Name"; "Sales"] (map row_of_pair (firstn 5 ranked))).
Proof.
  intros Hk Hj. unfold top_customers.
  rewrite (groupby_sum_ok _ _ _ _ _ Hk (getcols_one _ _ _ Hj)).
  cbn [bind]. unfold sort_values.
  change (getcol _ "Sales") with (@Ok nat 1%nat). cbn [bind columns data].
  set (rows := map _ (group_keys k fv)).
  assert (Hrows : Forall (fun r => row_of_pair (pair_of_row r) = r) rows).
  { apply Forall_forall. intros r Hr. unfold rows in Hr.
    apply in_map_iff in Hr as (g & <- & _). reflexivity. }
  destruct (sort_by_sales_desc rows) as [P S].
  { eapply Forall_impl; [|exact Hrows]. intros r Hr. now rewrite <- Hr. }
  set (sorted := Py.sort (fun r1 r2 : row => value_geb_nalast (cell 1 r1) (cell 1 r2)) rows) in *.
  assert (Hsorted : Forall (fun r => row_of_pair (pair_of_row r) = r) sorted).
  { rewrite Forall_forall in *. intros r Hr. apply Hrows.
    eapply Permutation_in; eauto. }
  exists (map pair_of_row sorted). split; [|split].
  - rewrite (Permutation_map pair_of_row P). unfold rows. rewrite map_map.
    unfold spec_customer_totals.
    apply (Permutation_map (fun c => (c, group_sum k j fv c))), group_keys_perm.
  - apply StronglySorted_map_on. exact S.
  - unfold head. cbn [columns data]. do 2 f_equal.
    rewrite <- firstn_map, map_map. now rewrite (map_fixed _ _ Hsorted).
Qed.

(** The categories in descending order of their Sales, as
    [category_summary] lists them. *)
Lemma categories_ranked (fv : DataFrame) (c j p : nat) :
  getcol fv "Category" = Ok c ->
  getcol fv "Sales" = Ok j ->
  getcol fv "Profit" = Ok p ->
  exists ranked,
    Permutation ranked (spec_category_totals c j p fv)
    /\ StronglySorted (fun a b => fst (snd a) >= fst (snd b)) ranked
    /\ category_summary fv
       = Ok (mkDataFrame ["Category"; "Sales"; "Profit"] (map row_of_triple ranked)).
Proof.
  intros Hc Hj Hp. unfold category_summary.
  rewrite (groupby_sum_ok _ _ _ _ _ Hc (getcols_two _ _ _ _ _ Hj Hp)).
  cbn [bind]. unfold sort_values.
  change (getcol _ "Sales") with (@Ok nat 1%nat). cbn [bind columns data].
  set (rows := map _ (group_keys c fv)).
  assert (Hrows : Forall (fun r => row_of_triple (triple_of_row r) = r) rows).
  { apply Forall_forall. intros r Hr. unfold rows in Hr.
    apply in_map_iff in Hr as (g & <- & _). reflexivity. }
  destruct (sort_by_sales_desc rows) as [P S].
  { apply Forall_forall. intros r Hr. unfold rows in Hr.
    apply in_map_iff in Hr as (g & <- & _). reflexivity. }
  set (sorted := Py.sort (fun r1 r2 : row => value_geb_nalast (cell 1 r1) (cell 1 r2)) rows) in *.
  assert (Hsorted : Forall (fun r => row_of_triple (triple_of_row r) = r) sorted).
  { rewrite Forall_forall in *. intros r Hr. apply Hrows.
    eapply Permutation_in; eauto. }
  exists (map triple_of_row sorted). split; [|split].
  - rewrite (Permutation_map triple_of_row P). unfold rows. rewrite map_map.
    unfold spec_category_totals.
    apply (Permutation_map (fun g => (g, (group_sum c j fv g, group_sum c p fv g)))),
      group_keys_perm.
  - apply StronglySorted_map_on. exact S.
  - do 2 f_equal. rewrite map_map. now rewrite (map_fixed _ _ Hsorted).
Qed.

(** The rows of [sales_time]: one per date, with the Sales of that date. *)
Lemma sales_time_shape (fv : DataFrame) (k j : nat) :
  getcol fv "Order Date" = Ok k ->
  getcol fv "Sales" = Ok j ->
  exists dates,
    Permutation dates (group_keys k fv)
    /\ sales_time fv
       = Ok (mkDataFrame ["Order Date"; "Sales"]
               (map (fun d => [d; Num (group_sum k j fv d)]) dates)).
Proof.
  intros Hk Hj. unfold sales_time.
  rewrite (groupby_sum_ok _ _ _ _ _ Hk (getcols_one _ _ _ Hj)).
  cbn [bind]. unfold sort_values.
  change (getcol _ "Order Date") with (@Ok nat 0%nat). cbn [bind columns data].
  set (rows := map _ (group_keys k fv)).
  set (sorted := Py.sort (fun r1 r2 : row => value_leb (cell 0 r1) (cell 0 r2)) rows).
  assert (P : Permutation sorted rows) by apply sort_perm.
  exists (map (cell 0) sorted). split.
  - rewrite (Permutation_map (cell 0) P). unfold rows. rewrite map_map.
    cbn [cell nth]. now rewrite map_id.
  - do 2 f_equal. rewrite map_map. symmetry. apply map_fixed.
    apply Forall_forall. intros r Hr. apply (Permutation_in _ P) in Hr.
    unfold rows in Hr. apply in_map_iff in Hr as (g & <- & _). reflexivity.
Qed.

End AggregateShape.

Module AmountFacts.
Import OrderFacts FrameFacts SortFacts AggregateFacts AggregateShape.

Lemma sum_Num (l : list Z) : sum (map Num l) = zsum l.
Proof. induction l as [|a t IH]; simpl; [reflexivity | now rewrite IH]. Qed.

(** The model's sum over a group is the sum of the amounts of the records
    of the group. *)
Lemma group_amount (k j : nat) (g : value) (rows : list row) (amounts : list Z) :
  map (cell j) rows = map Num amounts ->
  sum (map (cell j) (filter (fun r => value_eqb (cell k r) g) rows))
  = amount_of g (map (cell k) rows) amounts.
Proof.
  revert amounts. induction rows as [|r t IH]; intros [|a rest] H;
    try discriminate H; [reflexivity|].
  simpl in H. injection H as Ha Ht. cbn [map filter amount_of].
  unfold value_eqb. destruct (value_eq_dec (cell k r) g); cbn [map sum fold_right].
  - rewrite Ha. cbn [num_of]. f_equal. now apply IH.
  - rewrite Z.add_0_l. now apply IH.
Qed.

Lemma group_sum_amount (k j : nat) (fv : DataFrame) (amounts : list Z) (g : value) :
  numeric_column j fv amounts ->
  group_sum k j fv g = amount_of g (series k fv) amounts.
Proof. intros H. unfold group_sum, series. now apply group_amount. Qed.

Lemma total_amount (j : nat) (fv : DataFrame) (amounts : list Z) :
  numeric_column j fv amounts -> sum (series j fv) = zsum amounts.
Proof. unfold numeric_column. intros ->. apply sum_Num. Qed.

Lemma StronglySorted_suffix {A : Type} (R : A -> A -> Prop) (l1 l2 : list A) :
  StronglySorted R (l1 ++ l2) -> StronglySorted R l2.
Proof.
  induction l1 as [|x t IH]; simpl; [auto|].
  intros H. inversion H; subst. auto.
Qed.

Lemma StronglySorted_unmap {A B : Type} (f : A -> B) (R : B -> B -> Prop)
    (l : list A) :
  StronglySorted R (map f l) -> StronglySorted (fun a b => R (f a) (f b)) l.
Proof.
  induction l as [|x t IH]; simpl; intros H; constructor;
    inversion H as [|? ? Hs Hall]; subst; [now apply IH|].
  rewrite Forall_forall in *. intros y Hy. apply Hall. now apply in_map.
Qed.

Lemma timestamps_lt (a b : Z) :
  value_ltb (Timestamp a) (Timestamp b) = true -> a < b.
Proof.
  unfold value_ltb. cbn [value_leb]. intros H.
  apply andb_true_iff in H as [L N]. apply Z.leb_le in L.
  apply negb_true_iff in N.
  assert (a <> b).
  { intros ->. now rewrite value_eqb_refl in N. }
  lia.
Qed.

(** The dates of [sales_time], for any view. *)
Lemma sales_time_dates (fv : DataFrame) (k j : nat) :
  getcol fv "Order Date" = Ok k ->
  getcol fv "Sales" = Ok j ->
  exists out,
    sales_time fv = Ok out
    /\ columns out = ["Order Date"; "Sales"]
    /\ NoDup (series 0 out)
    /\ (forall d, In d (series 0 out) <-> d <> Null /\ In d (series k fv))
    /\ StronglySorted (fun a b => value_ltb a b = true) (series 0 out).
Proof.
  intros Hk Hj. unfold sales_time.
  rewrite (groupby_sum_ok _ _ _ _ _ Hk (getcols_one _ _ _ Hj)).
  cbn [bind]. unfold sort_values.
  change (getcol _ "Order Date") with (@Ok nat 0%nat). cbn [bind columns data].
  eexists. split; [reflexivity|]. split; [reflexivity|].
  set (rows := map _ (group_keys k fv)).
  set (le := fun r1 r2 : row => value_leb (cell 0 r1) (cell 0 r2)).
  assert (P : Permutation (series 0 (mkDataFrame ["Order Date"; "Sales"] (Py.sort le rows)))
                          (group_keys k fv)).
  { unfold series. cbn [data].
    rewrite (Permutation_map (cell 0) (sort_perm le rows)).
    unfold rows. rewrite map_map. cbn [cell nth]. now rewrite map_id. }
  split; [|split].
  - eapply Permutation_NoDup; [symmetry; exact P | apply group_keys_NoDup].
  - intros d. rewrite <- group_keys_In. split; intros H.
    + eapply Permutation_in; eauto.
    + eapply Permutation_in; [symmetry|]; eauto.
  - apply strict_of_sorted_NoDup.
    + apply value_leb_sorted_strongly. unfold series. cbn [data].
      apply Sorted_map. apply (sort_sorted le).
      intros a b. apply value_leb_total.
    + eapply Permutation_NoDup; [symmetry; exact P | apply group_keys_NoDup].
Qed.

(** The ranking behind [top_customers], with the sums given by the
    amounts. *)
Lemma customers_ranked_amounts (fv : DataFrame) (k j : nat) (sales : list Z) :
  getcol fv "Customer Name" = Ok k ->
  getcol fv "Sales" = Ok j ->
  numeric_column j fv sales ->
  exists ranked,
    top_customers fv
    = Ok (mkDataFrame ["Customer Name"; "Sales"] (map row_of_pair (firstn 5 ranked)))
    /\ NoDup (map fst ranked)
    /\ (forall g z, In (g, z) ranked
                    <-> g <> Null /\ In g (series k fv)
                        /\ z = amount_of g (series k fv) sales)
    /\ StronglySorted (fun a b => snd a >= snd b) ranked.
Proof.
  intros Hk Hj Hn.
  destruct (customers_ranked fv k j Hk Hj) as (ranked & P & S & E).
  exists ranked. split; [exact E|]. split; [|split; [|exact S]].
  - eapply Permutation_NoDup; [symmetry; apply (Permutation_map fst P)|].
    unfold spec_customer_totals. rewrite map_map. cbn [fst]. rewrite map_id.
    apply unique_NoDup.
  - intros g z. split.
    + intros H. apply (Permutation_in _ P) in H.
      unfold spec_customer_totals in H. apply in_map_iff in H as (c & [= <- <-] & Hc).
      apply unique_In, dropna_series_In in Hc as [Hc Nc].
      repeat split; auto. apply (group_sum_amount k j fv sales c Hn).
    + intros (Ng & Hg & ->).
      apply (Permutation_in _ (Permutation_sym P)).
      unfold spec_customer_totals. apply in_map_iff. exists g. split.
      * f_equal. apply (group_sum_amount k j fv sales g Hn).
      * apply unique_In, dropna_series_In. auto.
Qed.

(** The ranking behind [category_summary], with the sums given by the
    amounts. *)
Lemma categories_ranked_amounts (fv : DataFrame) (c j p : nat)
    (sales profits : list Z) :
  getcol fv "Category" = Ok c ->
  getcol fv "Sales" = Ok j ->
  getcol fv "Profit" = Ok p ->
  numeric_column j fv sales ->
  numeric_column p fv profits ->
  exists ranked,
    category_summary fv
    = Ok (mkDataFrame ["Category"; "Sales"; "Profit"] (map row_of_triple ranked))
    /\ NoDup (map fst ranked)
    /\ (forall g a b, In (g, (a, b)) ranked
                      <-> g <> Null /\ In g (series c fv)
                          /\ a = amount_of g (series c fv) sales
                          /\ b = amount_of g (series c fv) profits)
    /\ StronglySorted (fun a b => fst (snd a) >= fst (snd b)) ranked.
Proof.
  intros Hc Hj Hp Hs Hpr.
  destruct (categories_ranked fv c j p Hc Hj Hp) as (ranked & P & S & E).
  exists ranked. split; [exact E|]. split; [|split; [|exact S]].
  - eapply Permutation_NoDup; [symmetry; apply (Permutation_map fst P)|].
    unfold spec_category_totals. rewrite map_map. cbn [fst]. rewrite map_id.
    apply unique_NoDup.
  - intros g a b. split.
    + intros H. apply (Permutation_in _ P) in H.
      unfold spec_category_totals in H.
      apply in_map_iff in H as (x & [= <- <- <-] & Hx).
      apply unique_In, dropna_series_In in Hx as [Hx Nx].
      repeat split; auto.
      * apply (group_sum_amount c j fv sales x Hs).
      * apply (group_sum_amount c p fv profits x Hpr).
    + intros (Ng & Hg & -> & ->).
      apply (Permutation_in _ (Permutation_sym P)).
      unfold spec_category_totals. apply in_map_iff. exists g. split.
      * f_equal. f_equal.
        -- apply (group_sum_amount c j fv sales g Hs).
        -- apply (group_sum_amount c p fv profits g Hpr).
      * apply unique_In, dropna_series_In. auto.
Qed.

(** The sums of the groups of a column add up to the amounts of the rows
    when every row has a key. *)
Lemma groups_add_up (k j : nat) (fv : DataFrame) (amounts : list Z) :
  numeric_column j fv amounts ->
  Forall (fun r => cell k r <> Null) (data fv) ->
  zsum (map (group_sum k j fv) (unique (dropna_series (series k fv))))
  = zsum amounts.
Proof.
  intros Hn Hall.
  rewrite (zsum_perm _ (map (group_sum k j fv) (group_keys k fv))).
  2:{ apply Permutation_map. symmetry. apply group_keys_perm. }
  rewrite group_sums_cover, filter_all.
  - apply (total_amount j fv amounts Hn).
  - eapply Forall_impl; [|exact Hall].
    intros r Hr. destruct (cell k r) eqn:Z; simpl; congruence.
Qed.

End AmountFacts.

Section AggregateProperties.
Import OrderFacts FrameFacts SortFacts AggregateFacts AggregateShape AmountFacts.

(** C10. Sales Over Time has one row per Order Date that occurs in the
    view: the dates of the output are pairwise distinct, they are exactly
    the present Order Date values of the view, and after the ascending sort
    each date is strictly earlier than all the dates after it; of two time
    stamps in the output the one that comes first is the smaller number. *)
Theorem sales_time_strictly_increasing (fv : DataFrame) (k j : nat) :
  getcol fv "Order Date" = Ok k ->
  getcol fv "Sales" = Ok j ->
  is_unique "Order Date" (columns fv) = true ->
  is_unique "Sales" (columns fv) = true ->
  exists out,
    sales_time fv = Ok out
    /\ columns out = ["Order Date"; "Sales"]
    /\ NoDup (series 0 out)
    /\ (forall d, In d (series 0 out) <-> d <> Null /\ In d (series k fv))
    /\ StronglySorted (fun a b => value_ltb a b = true) (series 0 out)
    /\ (forall l1 l2 l3 a b,
          series 0 out = (l1 ++ Timestamp a :: l2 ++ Timestamp b :: l3)%list ->
          a < b)
    /\ (forall ts, series 0 out = map Timestamp ts -> StronglySorted Z.lt ts).
Proof.
  intros Hk Hj _ _.
  destruct (sales_time_dates fv k j Hk Hj) as (out & E & C & N & M & S).
  exists out. split; [exact E|]. split; [exact C|]. split; [exact N|].
  split; [exact M|]. split; [exact S|]. split.
  - intros l1 l2 l3 a b H. rewrite H in S.
    apply StronglySorted_suffix in S. inversion S as [|? ? _ Hall]; subst.
    rewrite Forall_forall in Hall. apply timestamps_lt, Hall.
    apply in_or_app. right. now left.
  - intros ts H. rewrite H in S. apply StronglySorted_unmap in S.
    apply Sorted_StronglySorted; [intros a b c; lia|].
    apply StronglySorted_Sorted in S.
    apply (Sorted_weaken (fun _ => True)
             (fun a b => value_ltb (Timestamp a) (Timestamp b) = true)).
    + intros a b _ _. apply timestamps_lt.
    + apply Forall_forall. auto.
    + exact S.
Qed.

(** The scenario with its first two records exchanged, so that a later date
    comes first: in the output 2021-01-01 precedes 2021-01-02. *)
Lemma sales_time_strictly_increasing_witness :
  sales_time scenario_shuffled
  = Ok (mkDataFrame ["Order Date"; "Sales"]
          [ [Timestamp 1609459200000000000; Num 150];
            [Timestamp 1609545600000000000; Num 200] ])
  /\ exists out ts,
       sales_time scenario_shuffled = Ok out
       /\ series 0 out = map Timestamp ts
       /\ StronglySorted Z.lt ts
       /\ ts = [1609459200000000000; 1609545600000000000].
Proof.
  split; [vm_compute; reflexivity|].
  destruct (sales_time_strictly_increasing scenario_shuffled 0 5
              eq_refl eq_refl eq_refl eq_refl) as (out & E & _ & _ & _ & _ & _ & T).
  exists out, [1609459200000000000; 1609545600000000000].
  assert (D : series 0 out
              = map Timestamp [1609459200000000000; 1609545600000000000]).
  { vm_compute in E. injection E as <-. reflexivity. }
  split; [exact E|]. split; [exact D|]. split; [exact (T _ D) | reflexivity].
Defined.





(** X11. No customer left out of Top-5 Customers has a larger Sales sum
    than a customer shown: the rows shown and the customers left out are
    the customers of the view, each once with the sum of its Sales amounts;
    every sum shown is at least every sum left out, and the number of rows
    is the number of customers, capped at 5. *)
Theorem top_customers_dominate (fv : DataFrame) (k j : nat) (sales : list Z) :
  getcol fv "Customer Name" = Ok k ->
  getcol fv "Sales" = Ok j ->
  is_unique "Customer Name" (columns fv) = true ->
  is_unique "Sales" (columns fv) = true ->
  numeric_column j fv sales ->
  exactly_summable sales ->
  exists out rest,
    top_customers fv = Ok out
    /\ NoDup (map fst (map pair_of_row (data out) ++ rest))
    /\ (forall g z, In (g, z) (map pair_of_row (data out) ++ rest)
                    <-> g <> Null /\ In g (series k fv)
                        /\ z = amount_of g (series k fv) sales)
    /\ (forall a b, In a (map pair_of_row (data out)) -> In b rest -> snd a >= snd b)
    /\ List.length (data out)
       = Nat.min 5 (List.length (map pair_of_row (data out) ++ rest)).
Proof.
  intros Hk Hj _ _ Hn _.
  destruct (customers_ranked_amounts fv k j sales Hk Hj Hn)
    as (ranked & E & N & M & S).
  eexists. exists (skipn 5 ranked). split; [exact E|]. cbn [data].
  assert (B : map pair_of_row (map row_of_pair (firstn 5 ranked)) = firstn 5 ranked).
  { rewrite map_map. apply map_fixed, Forall_forall. now intros [g z] _. }
  rewrite B, firstn_skipn. split; [exact N|]. split; [exact M|]. split.
  - apply StronglySorted_app_inv. now rewrite firstn_skipn.
  - now rewrite length_map, length_firstn.
Qed.

(** Six customers: F, with the smallest sum, is the one left out. *)
Lemma top_customers_dominate_witness :
  top_customers six_customers
  = Ok (mkDataFrame ["Customer Name"; "Sales"]
          [ [Str "B"; Num 200]; [Str "A"; Num 150]; [Str "C"; Num 70];
            [Str "D"; Num 40]; [Str "E"; Num 30] ])
  /\ exists out rest,
       top_customers six_customers = Ok out
       /\ In (Str "F", 10) rest
       /\ (forall a, In a (map pair_of_row (data out)) -> snd a >= 10)
       /\ List.length (data out) = 5%nat.
Proof.
  split; [vm_compute; reflexivity|].
  assert (X : exactly_summable six_customers_sales)
    by (unfold exactly_summable; cbn; lia).
  destruct (top_customers_dominate six_customers 1 5 six_customers_sales
              eq_refl eq_refl eq_refl eq_refl eq_refl X)
    as (out & rest & E & _ & M & D & L).
  assert (O : out = mkDataFrame ["Customer Name"; "Sales"]
                      [ [Str "B"; Num 200]; [Str "A"; Num 150]; [Str "C"; Num 70];
                        [Str "D"; Num 40]; [Str "E"; Num 30] ]).
  { vm_compute in E. now injection E as <-. }
  assert (F : In (Str "F", 10) rest).
  { assert (H : In (Str "F", 10) (map pair_of_row (data out) ++ rest)).
    { apply M. split; [discriminate|]. split; [cbn; tauto | reflexivity]. }
    apply in_app_or in H as [H|H]; [|exact H].
    rewrite O in H. cbn in H.
    repeat (destruct H as [H|H]; [discriminate H|]). contradiction. }
  exists out, rest. split; [exact E|]. split; [exact F|]. split.
  - intros a Ha. exact (D a _ Ha F).
  - rewrite O. reflexivity.
Defined.

(** X12. Category Summary has one row per category that occurs in the
    view, holding the category with the sum of the Sales amounts and the
    sum of the Profit amounts of its records, in descending order of the
    Sales sum. *)
Theorem category_summary_ranked (fv : DataFrame) (c j p : nat)
    (sales profits : list Z) :
  getcol fv "Category" = Ok c ->
  getcol fv "Sales" = Ok j ->
  getcol fv "Profit" = Ok p ->
  is_unique "Category" (columns fv) = true ->
  is_unique "Sales" (columns fv) = true ->
  is_unique "Profit" (columns fv) = true ->
  numeric_column j fv sales ->
  numeric_column p fv profits ->
  exactly_summable sales ->
  exactly_summable profits ->
  exists out ranked,
    category_summary fv = Ok out
    /\ columns out = ["Category"; "Sales"; "Profit"]
    /\ data out = map row_of_triple ranked
    /\ NoDup (map fst ranked)
    /\ (forall g a b, In (g, (a, b)) ranked
                      <-> g <> Null /\ In g (series c fv)
                          /\ a = amount_of g (series c fv) sales
                          /\ b = amount_of g (series c fv) profits)
    /\ StronglySorted (fun a b => fst (snd a) >= fst (snd b)) ranked.
Proof.
  intros Hc Hj Hp _ _ _ Hs Hpr _ _.
  destruct (categories_ranked_amounts fv c j p sales profits Hc Hj Hp Hs Hpr)
    as (ranked & E & N & M & S).
  eexists. exists ranked. split; [exact E|]. split; [reflexivity|].
  split; [reflexivity|]. split; [exact N|]. split; [exact M | exact S].
Qed.

(** Six customers in three categories. *)
Lemma category_summary_ranked_witness :
  category_summary six_customers
  = Ok (mkDataFrame ["Category"; "Sales"; "Profit"]
          [ [Str "Tech"; Num 330; Num 8]; [Str "Office"; Num 110; Num 11];
            [Str "Furniture"; Num 60; Num 6] ])
  /\ exists out ranked,
       category_summary six_customers = Ok out
       /\ data out = map row_of_triple ranked
       /\ In (Str "Tech", (330, 8)) ranked
       /\ StronglySorted (fun a b => fst (snd a) >= fst (snd b)) ranked.
Proof.
  split; [vm_compute; reflexivity|].
  assert (X : exactly_summable six_customers_sales)
    by (unfold exactly_summable; cbn; lia).
  assert (Y : exactly_summable six_customers_profits)
    by (unfold exactly_summable; cbn; lia).
  destruct (category_summary_ranked six_customers 3 5 6
              six_customers_sales six_customers_profits
              eq_refl eq_refl eq_refl eq_refl eq_refl eq_refl eq_refl eq_refl X Y)
    as (out & ranked & E & _ & D & _ & M & S).
  exists out, ranked. split; [exact E|]. split; [exact D|]. split; [|exact S].
  apply M. split; [discriminate|]. split; [cbn; tauto|]. split; reflexivity.
Defined.

(** X13. When every record of the view has a Category, the labels Category,
    Sales and Profit occur once and the Profit cells are integer amounts
    whose absolute values add up to at most 2^53, Total Profit is the sum
    of the Profit amounts and equals the sum of the per-category Profit
    sums of the Category Summary. *)
Theorem total_profit_matches_category_summary (fv : DataFrame) (c j p : nat)
    (profits : list Z) :
  getcol fv "Category" = Ok c ->
  getcol fv "Sales" = Ok j ->
  getcol fv "Profit" = Ok p ->
  is_unique "Category" (columns fv) = true ->
  is_unique "Sales" (columns fv) = true ->
  is_unique "Profit" (columns fv) = true ->
  Forall (fun r => cell c r <> Null) (data fv) ->
  numeric_column p fv profits ->
  exactly_summable profits ->
  exists summary totals,
    category_summary fv = Ok summary
    /\ getcol summary "Profit" = Ok 2%nat
    /\ series 2 summary = map Num totals
    /\ total_profit fv = Ok (zsum profits)
    /\ zsum totals = zsum profits.
Proof.
  intros Hc Hj Hp _ _ _ Hall Hn _.
  destruct (categories_ranked fv c j p Hc Hj Hp) as (ranked & P & _ & E).
  eexists. exists (map (fun t => snd (snd t)) ranked).
  split; [exact E|]. split; [reflexivity|]. split; [|split].
  - unfold series. cbn [data]. rewrite !map_map. reflexivity.
  - unfold total_profit. rewrite Hp. cbn [bind]. f_equal.
    apply (total_amount p fv profits Hn).
  - rewrite (zsum_perm _ _ (Permutation_map (fun t => snd (snd t)) P)).
    unfold spec_category_totals. rewrite map_map. cbn [fst snd].
    apply (groups_add_up c p fv profits Hn Hall).
Qed.

(** Six customers in three categories: 8 + 11 + 6 = 25. *)
Lemma total_profit_matches_category_summary_witness :
  total_profit six_customers = Ok 25
  /\ exists summary totals,
       category_summary six_customers = Ok summary
       /\ series 2 summary = map Num totals
       /\ total_profit six_customers = Ok (zsum six_customers_profits)
       /\ zsum totals = 25.
Proof.
  split; [vm_compute; reflexivity|].
  assert (Y : exactly_summable six_customers_profits)
    by (unfold exactly_summable; cbn; lia).
  assert (N : Forall (fun r => cell 3 r <> Null) (data six_customers))
    by (cbn; repeat (constructor; [discriminate|]); constructor).
  destruct (total_profit_matches_category_summary six_customers 3 5 6
              six_customers_profits
              eq_refl eq_refl eq_refl eq_refl eq_refl eq_refl N eq_refl Y)
    as (summary & totals & E & _ & T & S & Z).
  exists summary, totals. split; [exact E|]. split; [exact T|].
  split; [exact S|]. rewrite Z. reflexivity.
Defined.

(** X18. When every record of the view has an Order Date, the labels Order
    Date and Sales occur once and the Sales cells are integer amounts whose
    absolute values add up to at most 2^53, the Sales of Sales Over Time
    add up to Total Sales, the sum of the Sales amounts. *)
Theorem sales_time_sums_to_total (fv : DataFrame) (k j : nat) (sales : list Z) :
  getcol fv "Order Date" = Ok k ->
  getcol fv "Sales" = Ok j ->
  is_unique "Order Date" (columns fv) = true ->
  is_unique "Sales" (columns fv) = true ->
  Forall (fun r => cell k r <> Null) (data fv) ->
  numeric_column j fv sales ->
  exactly_summable sales ->
  exists out totals,
    sales_time fv = Ok out
    /\ getcol out "Sales" = Ok 1%nat
    /\ series 1 out = map Num totals
    /\ total_sales fv = Ok (zsum sales)
    /\ zsum totals = zsum sales.
Proof.
  intros Hk Hj _ _ Hall Hn _.
  destruct (sales_time_shape fv k j Hk Hj) as (dates & P & E).
  eexists. exists (map (group_sum k j fv) dates).
  split; [exact E|]. split; [reflexivity|]. split; [|split].
  - unfold series. cbn [data]. rewrite !map_map. reflexivity.
  - unfold total_sales. rewrite Hj. cbn [bind]. f_equal.
    apply (total_amount j fv sales Hn).
  - rewrite (zsum_perm _ _ (Permutation_map (group_sum k j fv) P)).
    rewrite <- (groups_add_up k j fv sales Hn Hall).
    apply zsum_perm, Permutation_map, group_keys_perm.
Qed.

(** Six customers on four days: 150 + 210 + 110 + 30 = 500. *)
Lemma sales_time_sums_to_total_witness :
  sales_time six_customers
  = Ok (mkDataFrame ["Order Date"; "Sales"]
          [ [jan 1; Num 150]; [jan 2; Num 210]; [jan 3; Num 110]; [jan 4; Num 30] ])
  /\ exists out totals,
       sales_time six_customers = Ok out
       /\ series 1 out = map Num totals
       /\ total_sales six_customers = Ok (zsum six_customers_sales)
       /\ zsum totals = 500.
Proof.
  split; [vm_compute; reflexivity|].
  assert (X : exactly_summable six_customers_sales)
    by (unfold exactly_summable; cbn; lia).
  assert (N : Forall (fun r => cell 0 r <> Null) (data six_customers))
    by (cbn; repeat (constructor; [discriminate|]); constructor).
  destruct (sales_time_sums_to_total six_customers 0 5 six_customers_sales
              eq_refl eq_refl eq_refl eq_refl N eq_refl X)
    as (out & totals & E & _ & T & S & Z).
  exists out, totals. split; [exact E|]. split; [exact T|].
  split; [exact S|]. rewrite Z. reflexivity.
Defined.

End AggregateProperties.


(** ** The aggregates do not depend on the order of the records *)

Module OrderIndependence.
Import OrderFacts FrameFacts SortFacts AggregateFacts.

Lemma sorted_perm_eq (l l' : list value) :
  StronglySorted (fun a b => value_leb a b = true) l ->
  StronglySorted (fun a b => value_leb a b = true) l' ->
  Permutation l l' -> l = l'.
Proof.
  revert l'. induction l as [|a t IH]; intros l' S1 S2 P.
  - apply Permutation_nil in P. now subst.
  - destruct l' as [|b t'];
      [apply Permutation_sym, Permutation_nil in P; discriminate|].
    inversion S1 as [|? ? St Ha]; subst. inversion S2 as [|? ? St' Hb]; subst.
    rewrite Forall_forall in Ha, Hb.
    assert (E : a = b).
    { assert (Ia : In a (b :: t')) by (eapply Permutation_in; [exact P | now left]).
      assert (Ib : In b (a :: t))
        by (eapply Permutation_in; [symmetry; exact P | now left]).
      destruct Ia as [->|Ia]; [reflexivity|].
      destruct Ib as [->|Ib]; [reflexivity|].
      apply value_leb_antisym; auto. }
    subst b. f_equal. apply IH; auto. now apply Permutation_cons_inv in P.
Qed.

Lemma group_keys_perm_inv (k : nat) (cols cols' : list string) (rows rows' : list row) :
  Permutation rows rows' ->
  group_keys k (mkDataFrame cols rows) = group_keys k (mkDataFrame cols' rows').
Proof.
  intros P. apply sorted_perm_eq.
  - apply value_leb_sorted_strongly, sort_sorted. intros a b. apply value_leb_total.
  - apply value_leb_sorted_strongly, sort_sorted. intros a b. apply value_leb_total.
  - apply NoDup_Permutation; try apply group_keys_NoDup.
    intros g. rewrite !group_keys_In. unfold series. cbn [data].
    split; intros [N I]; (split; [exact N|]).
    + eapply Permutation_in; [apply Permutation_map; exact P | exact I].
    + eapply Permutation_in; [apply Permutation_map; symmetry; exact P | exact I].
Qed.

Lemma sum_filter_perm (f : row -> value) (p : row -> bool) (rows rows' : list row) :
  Permutation rows rows' ->
  sum (map f (filter p rows)) = sum (map f (filter p rows')).
Proof.
  induction 1 as [|x l l' P IH|x y l|l l' l'' P1 IH1 P2 IH2]; simpl.
  - reflexivity.
  - destruct (p x); simpl; now rewrite IH.
  - destruct (p x), (p y); simpl; lia.
  - congruence.
Qed.

Lemma getcols_columns (df df' : DataFrame) (cs : list string) :
  columns df' = columns df -> getcols df' cs = getcols df cs.
Proof.
  intros H. induction cs as [|c t IH]; simpl; [reflexivity|].
  rewrite (getcol_same_columns df df' c H). now rewrite IH.
Qed.

Lemma groupby_sum_perm (key : string) (vals : list string) (cols : list string)
    (rows rows' : list row) :
  Permutation rows rows' ->
  groupby_sum key vals (mkDataFrame cols rows')
  = groupby_sum key vals (mkDataFrame cols rows).
Proof.
  intros P.
  destruct (getcol (mkDataFrame cols rows) key) as [k|e] eqn:Hk.
  - destruct (getcols (mkDataFrame cols rows) vals) as [js|e] eqn:Hj.
    + rewrite (groupby_sum_ok key vals (mkDataFrame cols rows) k js Hk Hj).
      rewrite (groupby_sum_ok key vals (mkDataFrame cols rows') k js).
      * rewrite (group_keys_perm_inv k cols cols rows rows' P).
        do 2 f_equal. apply map_ext. intros g. f_equal.
        apply map_ext. intros j. f_equal. unfold group_sum. cbn [data].
        apply sum_filter_perm. now symmetry.
      * exact Hk.
      * rewrite <- Hj. now apply getcols_columns.
    + unfold groupby_sum.
      change (getcol (mkDataFrame cols rows') key) with (getcol (mkDataFrame cols rows) key).
      rewrite (getcols_columns (mkDataFrame cols rows) (mkDataFrame cols rows') vals eq_refl).
      rewrite Hk, Hj. reflexivity.
  - unfold groupby_sum.
    change (getcol (mkDataFrame cols rows') key) with (getcol (mkDataFrame cols rows) key).
    rewrite Hk. reflexivity.
Qed.

End OrderIndependence.

Section OrderOfRecords.
Import FrameFacts OrderIndependence AmountFacts.

(** X15. The aggregates depend on the records of the view only up to their
    order.  For two views with the same labels whose records are
    rearrangements of each other, the labels of the five columns used
    occurring once and the Sales and Profit cells being integer amounts
    whose absolute values add up to at most 2^53: both views give the sum
    of the Sales amounts as Total Sales, the sum of the Profit amounts as
    Total Profit, and the same three tables, row for row. *)
Theorem aggregates_ignore_record_order (fv fv' : DataFrame) (j p : nat)
    (sales profits : list Z) :
  columns fv' = columns fv ->
  Permutation (data fv) (data fv') ->
  getcol fv "Sales" = Ok j ->
  getcol fv "Profit" = Ok p ->
  Forall (fun c => is_unique c (columns fv) = true)
    ["Sales"; "Profit"; "Customer Name"; "Category"; "Order Date"] ->
  numeric_column j fv sales ->
  numeric_column p fv profits ->
  exactly_summable sales ->
  exactly_summable profits ->
  total_sales fv = Ok (zsum sales)
  /\ total_sales fv' = Ok (zsum sales)
  /\ total_profit fv = Ok (zsum profits)
  /\ total_profit fv' = Ok (zsum profits)
  /\ top_customers fv' = top_customers fv
  /\ category_summary fv' = category_summary fv
  /\ sales_time fv' = sales_time fv.
Proof.
  intros Hcols P Hj Hp _ Hs Hpr _ _.
  assert (Ts : total_sales fv = Ok (zsum sales)).
  { unfold total_sales. rewrite Hj. cbn [bind]. f_equal.
    apply (total_amount j fv sales Hs). }
  assert (Tp : total_profit fv = Ok (zsum profits)).
  { unfold total_profit. rewrite Hp. cbn [bind]. f_equal.
    apply (total_amount p fv profits Hpr). }
  rewrite <- Ts, <- Tp. clear Ts Tp Hj Hp Hs Hpr.
  destruct fv as [cols rows], fv' as [cols' rows']. cbn [columns data] in *.
  subst cols'.
  assert (T : forall c,
             (i <- getcol (mkDataFrame cols rows') c ;;
              Ok (sum (series i (mkDataFrame cols rows'))))
             = (i <- getcol (mkDataFrame cols rows) c ;;
                Ok (sum (series i (mkDataFrame cols rows))))).
  { intros c.
    change (getcol (mkDataFrame cols rows') c) with (getcol (mkDataFrame cols rows) c).
    destruct (getcol (mkDataFrame cols rows) c) as [i|e]; [|reflexivity].
    cbn [bind]. f_equal. unfold series. cbn [data].
    apply sum_perm, Permutation_map. now symmetry. }
  unfold total_sales, total_profit, top_customers, category_summary, sales_time.
  rewrite !(groupby_sum_perm _ _ cols rows rows' P). rewrite !T.
  repeat split; reflexivity.
Qed.

(** The scenario and the scenario with its first two records exchanged. *)
Lemma aggregates_ignore_record_order_witness :
  total_sales scenario_shuffled = Ok 350
  /\ total_profit scenario_shuffled = Ok 10
  /\ total_sales scenario_dataset = Ok 350
  /\ total_sales scenario_shuffled = Ok (zsum [100; 200; 50])
  /\ top_customers scenario_shuffled = top_customers scenario_dataset
  /\ category_summary scenario_shuffled = category_summary scenario_dataset
  /\ sales_time scenario_shuffled = sales_time scenario_dataset.
Proof.
  split; [vm_compute; reflexivity|]. split; [vm_compute; reflexivity|].
  destruct (aggregates_ignore_record_order scenario_dataset scenario_shuffled 5 6
              [100; 200; 50] [10; -5; 5]) as (A & B & _ & _ & C & D & E);
    try reflexivity.
  - apply perm_swap.
  - repeat constructor.
  - unfold exactly_summable. cbn. lia.
  - unfold exactly_summable. cbn. lia.
  - repeat split; assumption.
Defined.

End OrderOfRecords.


(** ** From the file to the page *)

Module EndToEnd.
Import FrameFacts LoaderFacts LoadShape FilterFacts.

Section WithCoercion.
Variable coerce : list value -> value -> option Z.

(** What the loader guarantees of the dataset it returns. *)
Lemma loaded_invariants (env : Env) (ds : DataFrame) :
  load_data coerce env = Ok ds ->
  missing_columns (columns ds) = []
  /\ exists s p d,
       getcol ds "Sales" = Ok s
       /\ getcol ds "Profit" = Ok p
       /\ getcol ds "Order Date" = Ok d
       /\ Forall (fun r => notna (cell s r) = true /\ notna (cell p r) = true
                           /\ exists t, cell d r = Timestamp t) (data ds).
Proof.
  intros H. apply load_data_shape in H as (f & raw & d & F & R & M & U & Hd & ->).
  set (cols := normalize_columns (columns raw)) in *.
  cbn [columns]. split; [exact M|].
  assert (Ps : existsb (String.eqb "Sales") cols = true)
    by (apply validated_has; [exact M | unfold required; simpl; tauto]).
  assert (Pp : existsb (String.eqb "Profit") cols = true)
    by (apply validated_has; [exact M | unfold required; simpl; tauto]).
  apply get_loc_present in Ps as [s Hs]. apply get_loc_present in Pp as [p Hp].
  exists s, p, d. unfold getcol. cbn [columns]. rewrite Hs, Hp, Hd.
  repeat split. cbn [data]. apply Forall_forall. intros r' Hr'.
  apply in_map_iff in Hr' as (r & <- & Hr).
  apply filter_In in Hr as [Hr Hread]. apply filter_In in Hr as [_ Hsp].
  assert (Nds : d <> s).
  { intros ->. pose proof (get_loc_inj _ _ _ _ Hs Hd). discriminate. }
  assert (Ndp : d <> p).
  { intros ->. pose proof (get_loc_inj _ _ _ _ Hp Hd). discriminate. }
  unfold date_fixed. rewrite !cell_set_cell_other by assumption.
  rewrite cell_set_cell_same. split; [|split].
  - exact (complete_notna _ _ _ "Sales" s Hsp eq_refl Hs).
  - exact (complete_notna _ _ _ "Profit" p Hsp eq_refl Hp).
  - now apply coerced_present.
Qed.

End WithCoercion.

Lemma Forall_filter {A : Type} (P : A -> Prop) (p : A -> bool) (l : list A) :
  Forall P l -> Forall P (filter p l).
Proof.
  rewrite !Forall_forall. intros H a Ha. apply filter_In in Ha as [Ha _]. auto.
Qed.

(** The filter stage on a frame that has the required labels. *)
Lemma validated_view (df : DataFrame) (sel : FilterSelection) :
  missing_columns (columns df) = [] ->
  exists r c s,
    getcol df "Region" = Ok r
    /\ getcol df "Category" = Ok c
    /\ getcol df "Sub-Category" = Ok s
    /\ apply_filters df sel = Ok (select (spec_keeps r c s sel) df).
Proof.
  intros V.
  destruct (validated_getcol df "Region" V) as [r Hr]; [unfold required; simpl; tauto|].
  destruct (validated_getcol df "Category" V) as [c Hc]; [unfold required; simpl; tauto|].
  destruct (validated_getcol df "Sub-Category" V) as [s Hs];
    [unfold required; simpl; tauto|].
  exists r, c, s. repeat split; auto. now apply apply_filters_ok.
Qed.

End EndToEnd.

Section FileToPage.
Import FrameFacts LoaderFacts FilterFacts AggregateFacts AggregateShape EndToEnd.
Variable coerce : list value -> value -> option Z.

(** X16. Whatever is selected, filtering a loaded dataset succeeds, and the
    view keeps what the loader established: all required labels, and in
    every record a Sales value, a Profit value and an Order Date that is a
    time stamp. *)
Theorem filtered_view_keeps_invariants (env : Env) (ds : DataFrame)
    (sel : FilterSelection) :
  load_data coerce env = Ok ds ->
  exists fv s p d,
    apply_filters ds sel = Ok fv
    /\ columns fv = columns ds
    /\ missing_columns (columns fv) = []
    /\ getcol fv "Sales" = Ok s
    /\ getcol fv "Profit" = Ok p
    /\ getcol fv "Order Date" = Ok d
    /\ Forall (fun r => cell s r <> Null /\ cell p r <> Null
                        /\ exists t, cell d r = Timestamp t) (data fv).
Proof.
  intros H.
  destruct (loaded_invariants coerce env ds H) as (V & s & p & d & Hs & Hp & Hd & Hall).
  destruct (validated_view ds sel V) as (r & c & sc & _ & _ & _ & A).
  exists (select (spec_keeps r c sc sel) ds), s, p, d.
  split; [exact A|]. split; [reflexivity|]. split; [exact V|].
  split; [exact Hs|]. split; [exact Hp|]. split; [exact Hd|].
  cbn [select data]. apply Forall_filter.
  eapply Forall_impl; [|exact Hall].
  intros rec (Ns & Np & Nd). repeat split; auto.
  - intros Z. rewrite Z in Ns. discriminate.
  - intros Z. rewrite Z in Np. discriminate.
Qed.

End FileToPage.

Lemma filtered_view_keeps_invariants_witness :
  exists fv s p d,
    apply_filters scenario_dataset east_only = Ok fv
    /\ columns fv = columns scenario_dataset
    /\ missing_columns (columns fv) = []
    /\ getcol fv "Sales" = Ok s
    /\ getcol fv "Profit" = Ok p
    /\ getcol fv "Order Date" = Ok d
    /\ Forall (fun r => cell s r <> Null /\ cell p r <> Null
                        /\ exists t, cell d r = Timestamp t) (data fv).
Proof.
  apply (filtered_view_keeps_invariants iso_date (env_with scenario_raw)
           scenario_dataset east_only).
  vm_compute. reflexivity.
Defined.
